(** * SynologyPhotosAPI: a shallow embedding of SynologyPhotosLib.py and the
    three scripts (AddTags.py, UpdateApiInfo.py, UpdateTagsList.py).

    Python values decoded from JSON are [json]; exceptions are [exn]; the
    interpreter state the code touches (os.environ, the HTTP requests sent,
    stdout, stderr, the output directory) is a [world] threaded through a
    state and exception monad [M].  The transport [requests.get] is an
    oracle [serve] from a request to a response or a transport exception:
    the mocked HTTP layer of the spec. *)

From Stdlib Require Import String Ascii List ZArith Lia Bool.
From Stdlib Require Import DecimalString.
Import ListNotations.
Open Scope string_scope.

(** ** Python values *)

#[local] Set Warnings "-register-all".

Inductive json : Type :=
| JNull
| JBool (b : bool)
| JInt (z : Z)
| JStr (s : string)
| JList (l : list json)
| JObj (fields : list (string * json)).

(** An f-string: literal text and interpolated values ([str()] of each). *)
Inductive part : Type :=
| Lit (s : string)
| Val (v : json).

Definition message := list part.

Inductive exn : Type :=
| SynologyPhotoError (msg : message)
| KeyError (key : json)
| TypeError (what : string)
| AttributeError (what : string)
| JSONDecodeError
| RequestException (what : string)
| OSError (path : string)
| RecursionError
| SystemExit (code : Z).

(** [except Exception] catches everything but [SystemExit]. *)
Definition is_Exception (e : exn) : bool :=
  match e with SystemExit _ => false | _ => true end.

(** [str(e)]; the library's own errors carry their f-string. *)
Definition exn_str (e : exn) : message :=
  match e with
  | SynologyPhotoError m => m
  | KeyError k => [Val k]
  | TypeError s | AttributeError s | RequestException s => [Lit s]
  | JSONDecodeError => [Lit "Expecting value"]
  | OSError p => [Lit "cannot write "; Val (JStr p)]
  | RecursionError => [Lit "maximum recursion depth exceeded"]
  | SystemExit c => [Val (JInt c)]
  end.

(** Python truth value of a decoded JSON value ([not x]). *)
Definition truthy (v : json) : bool :=
  match v with
  | JNull => false
  | JBool b => b
  | JInt z => negb (Z.eqb z 0)
  | JStr s => negb (String.eqb s EmptyString)
  | JList l => match l with [] => false | _ => true end
  | JObj f => match f with [] => false | _ => true end
  end.

(** [v[k]] with a string key. *)
Definition lookup_key (v : json) (k : string) : exn + json :=
  match v with
  | JObj fs =>
      match find (fun kv => String.eqb (fst kv) k) fs with
      | Some kv => inr (snd kv)
      | None => inl (KeyError (JStr k))
      end
  | JList _ => inl (TypeError "list indices must be integers or slices, not str")
  | JStr _ => inl (TypeError "string indices must be integers")
  | _ => inl (TypeError "object is not subscriptable")
  end.

(** [for x in v]: a list yields its elements, a dict its keys, a string
    its characters. *)
Definition iter_json (v : json) : exn + list json :=
  match v with
  | JList l => inr l
  | JObj fs => inr (map (fun kv => JStr (fst kv)) fs)
  | JStr s => inr (map (fun c => JStr (String c EmptyString)) (list_ascii_of_string s))
  | _ => inl (TypeError "object is not iterable")
  end.

(** [v == s] for a Python string [s]: only an equal [str] compares equal. *)
Definition py_eq_str (v : json) (s : string) : bool :=
  match v with JStr s' => String.eqb s' s | _ => false end.

(** ** json.dumps *)

Definition string_of_Z (z : Z) : string := NilZero.string_of_int (Z.to_int z).

Definition chr (n : nat) : string := String (ascii_of_nat n) EmptyString.

Definition hex_digit (n : nat) : string :=
  if Nat.ltb n 10 then chr (48 + n) else chr (87 + n).

(** [py_encode_basestring_ascii] (ensure_ascii=True) on one character. *)
Definition escape_char (c : ascii) : string :=
  let n := nat_of_ascii c in
  if Nat.eqb n 34 then chr 92 ++ chr 34
  else if Nat.eqb n 92 then chr 92 ++ chr 92
  else if Nat.eqb n 8 then chr 92 ++ "b"
  else if Nat.eqb n 12 then chr 92 ++ "f"
  else if Nat.eqb n 10 then chr 92 ++ "n"
  else if Nat.eqb n 13 then chr 92 ++ "r"
  else if Nat.eqb n 9 then chr 92 ++ "t"
  else if andb (Nat.leb 32 n) (Nat.leb n 126) then String c EmptyString
  else chr 92 ++ "u00" ++ hex_digit (Nat.div n 16) ++ hex_digit (Nat.modulo n 16).

Definition encode_string (s : string) : string :=
  chr 34 ++ String.concat EmptyString (map escape_char (list_ascii_of_string s)) ++ chr 34.

Fixpoint spaces (n : nat) : string :=
  match n with O => EmptyString | S k => " " ++ spaces k end.

(** Items of a non-empty container: [", "] between them without indent;
    with [indent=n], each on a new line indented one level deeper. *)
Definition layout (indent : option nat) (lvl : nat) (items : list string) : string :=
  match indent with
  | None => String.concat ", " items
  | Some n =>
      let nl k := chr 10 ++ spaces (n * k) in
      nl (S lvl) ++ String.concat ("," ++ nl (S lvl)) items ++ nl lvl
  end.

(** [json.dumps(v, indent=indent)] at nesting level [lvl]. *)
Fixpoint dumps_at (indent : option nat) (lvl : nat) (v : json) : string :=
  match v with
  | JNull => "null"
  | JBool true => "true"
  | JBool false => "false"
  | JInt z => string_of_Z z
  | JStr s => encode_string s
  | JList l =>
      match l with
      | [] => "[]"
      | _ => "[" ++ layout indent lvl
               ((fix items (l : list json) : list string :=
                   match l with
                   | [] => []
                   | x :: r => dumps_at indent (S lvl) x :: items r
                   end) l) ++ "]"
      end
  | JObj fs =>
      match fs with
      | [] => "{}"
      | _ => "{" ++ layout indent lvl
               ((fix items (fs : list (string * json)) : list string :=
                   match fs with
                   | [] => []
                   | (k, x) :: r =>
                       (encode_string k ++ ": " ++ dumps_at indent (S lvl) x) :: items r
                   end) fs) ++ "}"
      end
  end.

Definition dumps (v : json) : string := dumps_at None 0 v.

(** ** HTTP and the interpreter state *)

(** [urljoin(base, path)], with [base] the value of os.getenv (None when
    unset); the transport interprets it. *)
Record url : Type := urljoin { url_base : option string; url_path : string }.

(** [requests.get(endpoint, params=params)]: the params dict in order. *)
Record request : Type := mk_request {
  endpoint : url;
  params : list (string * json)
}.

(** A response: its status code and its body, [None] when the body is not
    JSON (then [response.json()] raises). *)
Record response : Type := mk_response {
  status_code : Z;
  body : option json
}.

Record world : Type := mk_world {
  environ : list (string * string);
  requests_log : list request;
  stdout : list message;
  stderr : list message;
  dirs : list string;
  files : list (string * string)
}.

Definition set_environ (e : list (string * string)) (w : world) : world :=
  mk_world e (requests_log w) (stdout w) (stderr w) (dirs w) (files w).
Definition log_request (r : request) (w : world) : world :=
  mk_world (environ w) (requests_log w ++ [r]) (stdout w) (stderr w) (dirs w) (files w).
Definition log_out (m : message) (w : world) : world :=
  mk_world (environ w) (requests_log w) (stdout w ++ [m]) (stderr w) (dirs w) (files w).
Definition log_err (m : message) (w : world) : world :=
  mk_world (environ w) (requests_log w) (stdout w) (stderr w ++ [m]) (dirs w) (files w).
Definition add_dir (p : string) (w : world) : world :=
  mk_world (environ w) (requests_log w) (stdout w) (stderr w) (p :: dirs w) (files w).
Definition set_file (p c : string) (w : world) : world :=
  mk_world (environ w) (requests_log w) (stdout w) (stderr w) (dirs w)
    ((p, c) :: filter (fun pc => negb (String.eqb (fst pc) p)) (files w)).

Definition file_contents (p : string) (w : world) : option string :=
  option_map snd (find (fun pc => String.eqb (fst pc) p) (files w)).

(** ** The state and exception monad *)

Definition M (A : Type) : Type := world -> (exn + A) * world.

Definition ret {A} (a : A) : M A := fun w => (inr a, w).
Definition raise {A} (e : exn) : M A := fun w => (inl e, w).
Definition bind {A B} (m : M A) (f : A -> M B) : M B :=
  fun w => match m w with
           | (inl e, w') => (inl e, w')
           | (inr a, w') => f a w'
           end.
Definition lift {A} (r : exn + A) : M A := fun w => (r, w).

Notation "x <- m ;; k" := (bind m (fun x => k))
  (at level 61, m at next level, right associativity).
Notation "m ;;; k" := (bind m (fun _ => k))
  (at level 61, right associativity).

(** [try: m except ...]: [handler e] is [None] when no clause matches. *)
Definition try_except {A} (m : M A) (handler : exn -> option (M A)) : M A :=
  fun w => match m w with
           | (inl e, w') =>
               match handler e with
               | Some h => h w'
               | None => (inl e, w')
               end
           | r => r
           end.

Definition env_lookup (name : string) (env : list (string * string)) : option string :=
  option_map snd (find (fun kv => String.eqb (fst kv) name) env).

Definition getenv (name : string) : M (option string) :=
  fun w => (inr (env_lookup name (environ w)), w).

(** The value os.getenv returns, as a Python value (None when unset). *)
Definition py_of_env (v : option string) : json :=
  match v with Some s => JStr s | None => JNull end.

Definition print (m : message) : M unit := fun w => (inr tt, log_out m w).
Definition eprint (m : message) : M unit := fun w => (inr tt, log_err m w).

Definition getitem (v : json) (k : string) : M json := lift (lookup_key v k).
Definition py_iter (v : json) : M (list json) := lift (iter_json v).

Section Library.

(** The transport behind [requests.get]. *)
Variable serve : request -> exn + response.

Definition requests_get (u : url) (ps : list (string * json)) : M response :=
  fun w => let r := mk_request u ps in (serve r, log_request r w).

Definition response_json (r : response) : M json :=
  match body r with Some j => ret j | None => raise JSONDecodeError end.

(** The block every library function repeats:
    [endpoint = urljoin(os.getenv('SYNOLOGY_PHOTO_URL'), path)],
    [response = requests.get(endpoint, params=params)], the status check,
    [data = response.json()] and the [data['success']] check. *)
Definition checked_get (path : string) (ps : list (string * json)) (failure : string)
  : M json :=
  base <- getenv "SYNOLOGY_PHOTO_URL" ;;
  response <- requests_get (urljoin base path) ps ;;
  if negb (Z.eqb (status_code response) 200) then
    raise (SynologyPhotoError [Lit "Request failed: "; Val (JInt (status_code response))])
  else
    data <- response_json response ;;
    success <- getitem data "success" ;;
    if truthy success then ret data
    else
      error <- getitem data "error" ;;
      code <- getitem error "code" ;;
      raise (SynologyPhotoError [Lit failure; Val code]).

Definition auth_params (username password : json) : list (string * json) :=
  [("api", JStr "SYNO.API.Auth"); ("version", JInt 7); ("method", JStr "login");
   ("account", username); ("passwd", password)].

Definition authenticate (username password : json) : M json :=
  data <- checked_get "webapi/auth.cgi" (auth_params username password)
            "Authentication failed: " ;;
  d <- getitem data "data" ;;
  getitem d "sid".

Definition api_info_params : list (string * json) :=
  [("api", JStr "SYNO.API.Info"); ("version", JInt 1); ("method", JStr "query")].

Definition get_api_info : M json :=
  data <- checked_get "webapi/query.cgi" api_info_params "Failed to get API Info: " ;;
  getitem data "data".

Definition folders_params (sid folder_id : json) : list (string * json) :=
  [("api", JStr "SYNO.Foto.Browse.Folder"); ("version", JInt 2); ("id", folder_id);
   ("method", JStr "list"); ("_sid", sid); ("offset", JInt 0); ("limit", JInt 100)].

Definition get_folders (sid folder_id : json) : M json :=
  data <- checked_get "webapi/entry.cgi" (folders_params sid folder_id)
            "Failed to get root folders: " ;;
  d <- getitem data "data" ;;
  getitem d "list".

Definition items_params (sid folder_id : json) : list (string * json) :=
  [("api", JStr "SYNO.Foto.Browse.Item"); ("version", JInt 4); ("folder_id", folder_id);
   ("method", JStr "list"); ("_sid", sid); ("offset", JInt 0); ("limit", JInt 100);
   ("additional", JStr ("[" ++ chr 34 ++ "tag" ++ chr 34 ++ "]"))].

(** The bound method [items.extend], looked up before the argument of
    the call is evaluated: only a list has it. *)
Definition extend_method (items : json) : M (list json) :=
  match items with
  | JList l => ret l
  | _ => raise (AttributeError "object has no attribute 'extend'")
  end.

(** Calling [items.extend(sub)] on the list [l]: it iterates [sub]. *)
Definition py_extend (l : list json) (sub : json) : M json :=
  s <- py_iter sub ;; ret (JList (l ++ s)).

(** The loop [for folder in folders: items.extend(get_items(sid,
    folder['id'], recursive=True))]; [sub] is the recursive call.  Python
    evaluates [items.extend], then [folder['id']], then the call, then
    extends. *)
Fixpoint extend_loop (sub : json -> M json) (fs : list json) (items : json) : M json :=
  match fs with
  | [] => ret items
  | folder :: rest =>
      l <- extend_method items ;;
      fid <- getitem folder "id" ;;
      s <- sub fid ;;
      items' <- py_extend l s ;;
      extend_loop sub rest items'
  end.

(** [get_items]; [fuel] is the depth of recursive calls the interpreter
    still allows (Python's recursion limit): a call beyond it raises. *)
Fixpoint get_items (fuel : nat) (sid folder_id : json) (recursive : bool) : M json :=
  data <- checked_get "webapi/entry.cgi" (items_params sid folder_id)
            "Failed to get items: " ;;
  d <- getitem data "data" ;;
  items <- getitem d "list" ;;
  if recursive then
    folders <- get_folders sid folder_id ;;
    fs <- py_iter folders ;;
    extend_loop (fun fid => match fuel with
                            | O => raise RecursionError
                            | S fuel' => get_items fuel' sid fid true
                            end) fs items
  else ret items.

Definition tags_params (sid : json) : list (string * json) :=
  [("api", JStr "SYNO.Foto.Browse.GeneralTag"); ("version", JInt 1); ("method", JStr "list");
   ("_sid", sid); ("limit", JInt 100); ("offset", JInt 0)].

Definition get_all_tags (sid : json) : M json :=
  data <- checked_get "webapi/entry.cgi" (tags_params sid) "Failed to get all tags: " ;;
  d <- getitem data "data" ;;
  getitem d "list".

Definition tag_not_found (tag_name : string) : exn :=
  SynologyPhotoError [Lit "Tag '"; Val (JStr tag_name); Lit "' not found."].

(** The loop of [get_tag] over the tags. *)
Fixpoint find_tag (tag_name : string) (tags : list json) : M json :=
  match tags with
  | [] => raise (tag_not_found tag_name)
  | tag :: rest =>
      name <- getitem tag "name" ;;
      if py_eq_str name tag_name then ret tag else find_tag tag_name rest
  end.

Definition get_tag (sid : json) (tag_name : string) : M json :=
  tags <- get_all_tags sid ;;
  ts <- py_iter tags ;;
  find_tag tag_name ts.

Definition add_tag_params (sid item_ids tag_ids : json) : list (string * json) :=
  [("api", JStr "SYNO.Foto.Browse.Item"); ("version", JInt 1); ("method", JStr "add_tag");
   ("_sid", sid); ("id", JStr (dumps item_ids)); ("tag", JStr (dumps tag_ids))].

Definition add_tag (sid item_ids tag_ids : json) : M unit :=
  _ <- checked_get "webapi/entry.cgi" (add_tag_params sid item_ids tag_ids)
         "Failed to add tags: " ;;
  ret tt.

(** ** Scripts *)

(** [load_dotenv()]: the entries of the .env file are added to os.environ
    for the names not set there already (override=False). *)
Definition load_dotenv (dotenv : list (string * string)) : M unit :=
  fun w =>
    let absent kv := negb (existsb (fun kv' => String.eqb (fst kv') (fst kv)) (environ w)) in
    (inr tt, set_environ (environ w ++ filter absent dotenv) w).

(** [os.makedirs(p, exist_ok=True)]: fails when a file has that path. *)
Definition makedirs (p : string) : M unit :=
  fun w => if existsb (fun pc => String.eqb (fst pc) p) (files w)
           then (inl (OSError p), w) else (inr tt, add_dir p w).

(** [open(p, 'w')] truncates the file, or fails on a directory. *)
Definition open_w (p : string) : M unit :=
  fun w => if existsb (String.eqb p) (dirs w)
           then (inl (OSError p), w) else (inr tt, set_file p EmptyString w).

(** [json.dump(data, f, indent=4)] on a file just opened. *)
Definition json_dump_file (p : string) (data : json) : M unit :=
  fun w => (inr tt, set_file p (dumps_at (Some 4) 0 data) w).

(** [os.path.join(output_dir, name)] for the output directory of a script. *)
Definition path_join (dir name : string) : string := dir ++ "/" ++ name.

(** The process exit status: 0 after a normal end, the code of
    [sys.exit], and 1 for an uncaught exception. *)
Definition exit_status (r : exn + unit) : Z :=
  match r with
  | inr _ => 0
  | inl (SystemExit c) => c
  | inl _ => 1
  end.

(** The [except Exception as e] clause of the two dump scripts. *)
Definition report_and_exit (e : exn) : option (M unit) :=
  if is_Exception e
  then Some (eprint (Lit "Error: " :: exn_str e) ;;; raise (SystemExit 1))
  else None.

(** UpdateApiInfo.py; [output_dir] is the 'output' directory next to
    the scripts directory. *)
Definition update_api_info (dotenv : list (string * string)) (output_dir : string)
  : M unit :=
  load_dotenv dotenv ;;;
  makedirs output_dir ;;;
  try_except
    (data <- get_api_info ;;
     let output_file := path_join output_dir "api_info.json" in
     open_w output_file ;;;
     json_dump_file output_file data ;;;
     print [Lit "API info saved to "; Val (JStr output_file)])
    report_and_exit.

(** UpdateTagsList.py. *)
Definition update_tags_list (dotenv : list (string * string)) (output_dir : string)
  : M unit :=
  load_dotenv dotenv ;;;
  makedirs output_dir ;;;
  try_except
    (username <- getenv "SYNOLOGY_PHOTO_USERNAME" ;;
     password <- getenv "SYNOLOGY_PHOTO_PASSWORD" ;;
     sid <- authenticate (py_of_env username) (py_of_env password) ;;
     tags_info <- get_all_tags sid ;;
     let output_file := path_join output_dir "tags_info.json" in
     open_w output_file ;;;
     json_dump_file output_file tags_info ;;;
     print [Lit "Tags info saved to "; Val (JStr output_file)])
    report_and_exit.

(** AddTags.py *)

Definition team_folders_id : list (string * Z) :=
  [("U20F", 3048); ("U18M-2", 3042); ("U18M-1", 3037); ("U16M-2", 3032);
   ("U16M-1", 3027); ("U16F", 3022); ("U14M-2", 3017); ("U14M-1", 3012);
   ("U12-2", 3007); ("U12-1", 3002); ("U10-1", 2997); ("3LRM", 2992);
   ("3LRF", 2987); ("2LRM", 2982); ("1LNM", 2977)]%Z.

(** Python's recursion limit, as the depth [get_items] may recurse. *)
Variable recursion_budget : nat.

(** [[f(x) for x in xs]]. *)
Fixpoint map_m {A B} (f : A -> M B) (xs : list A) : M (list B) :=
  match xs with
  | [] => ret []
  | x :: r => y <- f x ;; ys <- map_m f r ;; ret (y :: ys)
  end.

(** The body of the [try] in [process_team]. *)
Definition process_team_body (sid : json) (team_name : string) (folder_id : Z) : M unit :=
  print [Lit "Processing team "; Val (JStr team_name); Lit "..."] ;;;
  items <- get_items recursion_budget sid (JInt folder_id) true ;;
  its <- py_iter items ;;
  items_ids <- map_m (fun item => getitem item "id") its ;;
  tag <- get_tag sid team_name ;;
  tag_id <- getitem tag "id" ;;
  add_tag sid (JList items_ids) (JList [tag_id]).

Definition team_error (team_name : string) (e : exn) : option (M unit) :=
  match e with
  | SynologyPhotoError m =>
      Some (eprint (Lit "Error processing team " :: Val (JStr team_name) :: Lit ": " :: m))
  | _ => None
  end.

Definition process_team (sid : json) (team_name : string) (folder_id : Z) : M unit :=
  try_except (process_team_body sid team_name folder_id) (team_error team_name).

(** [for team_name, folder_id in team_folders_id.items(): process_team(...)]. *)
Fixpoint process_teams (sid : json) (teams : list (string * Z)) : M unit :=
  match teams with
  | [] => ret tt
  | (team_name, folder_id) :: rest =>
      process_team sid team_name folder_id ;;; process_teams sid rest
  end.

Definition required_env : list string :=
  ["SYNOLOGY_PHOTO_USERNAME"; "SYNOLOGY_PHOTO_PASSWORD"; "SYNOLOGY_PHOTO_URL"].

(** [[var for var in required_env if not os.getenv(var)]]. *)
Fixpoint missing_vars (vars : list string) : M (list string) :=
  match vars with
  | [] => ret []
  | var :: r =>
      v <- getenv var ;;
      rest <- missing_vars r ;;
      ret (if truthy (py_of_env v) then rest else var :: rest)
  end.

Definition fatal_error (e : exn) : option (M unit) :=
  match e with
  | SynologyPhotoError m => Some (eprint (Lit "Fatal error: " :: m) ;;; raise (SystemExit 1))
  | _ => None
  end.

Definition add_tags_main (dotenv : list (string * string)) : M unit :=
  load_dotenv dotenv ;;;
  missing_env <- missing_vars required_env ;;
  match missing_env with
  | _ :: _ =>
      eprint [Lit "Missing required environment variables: "; Lit (String.concat ", " missing_env)] ;;;
      raise (SystemExit 1)
  | [] =>
      try_except
        (username <- getenv "SYNOLOGY_PHOTO_USERNAME" ;;
         password <- getenv "SYNOLOGY_PHOTO_PASSWORD" ;;
         sid <- authenticate (py_of_env username) (py_of_env password) ;;
         print [Lit "Processing "; Val (JInt (Z.of_nat (length team_folders_id))); Lit " teams..."] ;;;
         process_teams sid team_folders_id ;;;
         print [Lit "All teams processed successfully"])
        fatal_error
  end.

End Library.

(** ** A mocked server holding a folder tree *)

(** A folder: its id, its items and its subfolders. *)
Inductive ftree : Type :=
| FNode (fid : Z) (fitems : list json) (children : list ftree).

Definition node_id (t : ftree) : Z := match t with FNode i _ _ => i end.
Definition node_items (t : ftree) : list json := match t with FNode _ its _ => its end.
Definition node_children (t : ftree) : list ftree := match t with FNode _ _ cs => cs end.

(** Every folder of the tree, the root first. *)
Fixpoint subtrees (t : ftree) : list ftree :=
  match t with FNode _ _ cs => t :: concat (map subtrees cs) end.

(** Nesting depth: 0 for a folder without subfolders. *)
Fixpoint depth (t : ftree) : nat :=
  match t with FNode _ _ cs => list_max (map (fun c => S (depth c)) cs) end.

(** The items of a folder and of all its descendants. *)
Fixpoint all_items (t : ftree) : list json :=
  match t with FNode _ its cs => its ++ concat (map all_items cs) end.

(** The items a client sees when it reads one page of at most 100 entries
    of every listing. *)
Fixpoint first_page_items (t : ftree) : list json :=
  match t with
  | FNode _ its cs => firstn 100 its ++ concat (firstn 100 (map first_page_items cs))
  end.

Definition find_folder (i : Z) (t : ftree) : option ftree :=
  find (fun n => Z.eqb (node_id n) i) (subtrees t).

Definition param (k : string) (r : request) : option json :=
  option_map snd (find (fun kv => String.eqb (fst kv) k) (params r)).

Definition ok_list (l : list json) : response :=
  mk_response 200 (Some (JObj [("success", JBool true); ("data", JObj [("list", JList l)])])).

Definition vendor_error (code : Z) : response :=
  mk_response 200 (Some (JObj [("success", JBool false); ("error", JObj [("code", JInt code)])])).

(** The page [offset, offset + limit) of a listing. *)
Definition page (offset limit : Z) (l : list json) : list json :=
  firstn (Z.to_nat limit) (skipn (Z.to_nat offset) l).

Definition folder_entry (c : ftree) : json := JObj [("id", JInt (node_id c))].

(** The folder and item list endpoints serving the tree [t]. *)
Definition tree_serve (t : ftree) (r : request) : exn + response :=
  match param "api" r, param "offset" r, param "limit" r with
  | Some (JStr api), Some (JInt off), Some (JInt lim) =>
      if String.eqb api "SYNO.Foto.Browse.Folder" then
        match param "id" r with
        | Some (JInt i) =>
            match find_folder i t with
            | Some n => inr (ok_list (page off lim (map folder_entry (node_children n))))
            | None => inr (vendor_error 642)
            end
        | _ => inr (vendor_error 120)
        end
      else if String.eqb api "SYNO.Foto.Browse.Item" then
        match param "folder_id" r with
        | Some (JInt i) =>
            match find_folder i t with
            | Some n => inr (ok_list (page off lim (node_items n)))
            | None => inr (vendor_error 642)
            end
        | _ => inr (vendor_error 120)
        end
      else inr (vendor_error 102)
  | _, _, _ => inr (vendor_error 101)
  end.

Definition empty_world : world := mk_world [("SYNOLOGY_PHOTO_URL", "https://nas.local/")] [] [] [] [] [].

Definition sample_tree : ftree :=
  FNode 1 [JInt 10; JInt 11]
    [FNode 2 [JInt 20] [FNode 4 [JInt 40; JInt 41] []];
     FNode 3 [] [FNode 5 [JInt 50] []]].

Example sample_tree_listing :
  fst (get_items (tree_serve sample_tree) 5 (JStr "sid") (JInt 1) true empty_world)
  = inr (JList [JInt 10; JInt 11; JInt 20; JInt 40; JInt 41; JInt 50]).
Proof. vm_compute. reflexivity. Qed.

(** ** Monad and library lemmas *)

Lemma bind_inr {A B} (m : M A) (f : A -> M B) w a w' :
  m w = (inr a, w') -> bind m f w = f a w'.
Proof. intros H. unfold bind. rewrite H. reflexivity. Qed.

Lemma bind_inl {A B} (m : M A) (f : A -> M B) w e w' :
  m w = (inl e, w') -> bind m f w = (inl e, w').
Proof. intros H. unfold bind. rewrite H. reflexivity. Qed.

Definition env_url (w : world) : option string := env_lookup "SYNOLOGY_PHOTO_URL" (environ w).

(** A 200 response whose body has a true success flag goes through. *)
Lemma checked_get_success serve path ps failure w resp data s :
  serve (mk_request (urljoin (env_url w) path) ps) = inr resp ->
  status_code resp = 200%Z -> body resp = Some data ->
  lookup_key data "success" = inr s -> truthy s = true ->
  checked_get serve path ps failure w
  = (inr data, log_request (mk_request (urljoin (env_url w) path) ps) w).
Proof.
  intros Hs Hc Hb Hk Ht. unfold checked_get, bind, getenv, requests_get.
  unfold env_url in Hs. rewrite Hs, Hc. simpl.
  unfold response_json. rewrite Hb. simpl. unfold getitem, lift. rewrite Hk, Ht.
  reflexivity.
Qed.

Lemma checked_get_ok_list serve path ps failure w l :
  serve (mk_request (urljoin (env_url w) path) ps) = inr (ok_list l) ->
  checked_get serve path ps failure w
  = (inr (JObj [("success", JBool true); ("data", JObj [("list", JList l)])]),
     log_request (mk_request (urljoin (env_url w) path) ps) w).
Proof. intros H. eapply checked_get_success; eauto; reflexivity. Qed.

(** ** Folder trees *)

Section FtreeInd.
Variable P : ftree -> Prop.
Hypothesis HP : forall i its cs, Forall P cs -> P (FNode i its cs).

Fixpoint ftree_ind' (t : ftree) : P t :=
  match t with
  | FNode i its cs =>
      HP i its cs
        ((fix go (cs : list ftree) : Forall P cs :=
            match cs with
            | [] => Forall_nil P
            | c :: r => Forall_cons c (ftree_ind' c) (go r)
            end) cs)
  end.
End FtreeInd.

Lemma find_unique_id (l : list ftree) (n : ftree) :
  NoDup (map node_id l) -> In n l ->
  find (fun m => Z.eqb (node_id m) (node_id n)) l = Some n.
Proof.
  induction l as [|a l IH]; simpl; intros Hnd Hin; [contradiction|].
  inversion Hnd as [|? ? Hna Hnd']; subst.
  destruct Hin as [<-|Hin].
  - rewrite Z.eqb_refl. reflexivity.
  - destruct (Z.eqb (node_id a) (node_id n)) eqn:E.
    + apply Z.eqb_eq in E. exfalso. apply Hna. rewrite E. apply in_map. exact Hin.
    + apply IH; assumption.
Qed.

Lemma in_firstn_in {A} n (x : A) l : In x (firstn n l) -> In x l.
Proof.
  intros H. rewrite <- (firstn_skipn n l). apply in_or_app. left. exact H.
Qed.

Lemma child_subtrees_incl i its cs c :
  In c cs -> incl (subtrees c) (subtrees (FNode i its cs)).
Proof.
  intros Hc x Hx. simpl. right. apply in_concat. exists (subtrees c).
  split; [apply in_map; exact Hc | exact Hx].
Qed.

Section TreeServer.
Variable t : ftree.
Hypothesis Hnd : NoDup (map node_id (subtrees t)).

Lemma find_folder_sub n : In n (subtrees t) -> find_folder (node_id n) t = Some n.
Proof. intros H. unfold find_folder. apply find_unique_id; assumption. Qed.

Lemma tree_serve_items u sid n :
  In n (subtrees t) ->
  tree_serve t (mk_request u (items_params sid (JInt (node_id n))))
  = inr (ok_list (firstn 100 (node_items n))).
Proof.
  intros H. unfold tree_serve. simpl. rewrite (find_folder_sub n H). reflexivity.
Qed.

Lemma tree_serve_folders u sid n :
  In n (subtrees t) ->
  tree_serve t (mk_request u (folders_params sid (JInt (node_id n))))
  = inr (ok_list (firstn 100 (map folder_entry (node_children n)))).
Proof.
  intros H. unfold tree_serve. simpl. rewrite (find_folder_sub n H). reflexivity.
Qed.

Lemma get_folders_tree sid n w :
  In n (subtrees t) ->
  get_folders (tree_serve t) sid (JInt (node_id n)) w
  = (inr (JList (firstn 100 (map folder_entry (node_children n)))),
     log_request (mk_request (urljoin (env_url w) "webapi/entry.cgi")
                   (folders_params sid (JInt (node_id n)))) w).
Proof.
  intros H. unfold get_folders.
  erewrite bind_inr by (apply checked_get_ok_list; apply tree_serve_folders; exact H).
  reflexivity.
Qed.

Lemma extend_loop_entries (sub : json -> M json) cs acc w :
  Forall (fun c => forall w, fst (sub (JInt (node_id c)) w)
                             = inr (JList (first_page_items c))) cs ->
  fst (extend_loop sub (map folder_entry cs) (JList acc) w)
  = inr (JList (acc ++ concat (map first_page_items cs))).
Proof.
  revert acc w. induction cs as [|c cs IH]; intros acc w Hall.
  - simpl. rewrite app_nil_r. reflexivity.
  - inversion Hall as [|? ? Hc Hcs]; subst.
    specialize (Hc w). destruct (sub (JInt (node_id c)) w) as [r w1] eqn:E.
    simpl in Hc. subst r.
    assert (Hstep : extend_loop sub (map folder_entry (c :: cs)) (JList acc) w
                    = extend_loop sub (map folder_entry cs) (JList (acc ++ first_page_items c)) w1).
    { simpl. unfold bind, extend_method, getitem, lift, ret, py_extend, py_iter. simpl.
      rewrite E. reflexivity. }
    rewrite Hstep, IH by exact Hcs. cbn [map concat]. rewrite app_assoc. reflexivity.
Qed.

Lemma get_items_tree sid :
  forall n, incl (subtrees n) (subtrees t) ->
  forall fuel w, depth n <= fuel ->
  fst (get_items (tree_serve t) fuel sid (JInt (node_id n)) true w)
  = inr (JList (first_page_items n)).
Proof.
  intros n. induction n as [i its cs IHcs] using ftree_ind'.
  intros Hincl fuel w Hd.
  assert (Hn : In (FNode i its cs) (subtrees t)) by (apply Hincl; left; reflexivity).
  assert (Hget : forall f, get_items (tree_serve t) f sid (JInt i) true
                 = get_items (tree_serve t) f sid (JInt (node_id (FNode i its cs))) true)
    by reflexivity.
  destruct fuel as [|f]; cbn [get_items];
  (erewrite bind_inr; [|apply checked_get_ok_list;
                         apply (tree_serve_items _ sid (FNode i its cs) Hn)]);
  cbn [getitem lift lookup_key bind find fst snd String.eqb Ascii.eqb Bool.eqb];
  (erewrite bind_inr; [|apply (get_folders_tree sid (FNode i its cs) _ Hn)]);
  cbn [getitem lift lookup_key bind find fst snd String.eqb Ascii.eqb Bool.eqb
       py_iter iter_json node_children first_page_items];
  rewrite firstn_map; rewrite firstn_map;
  apply extend_loop_entries;
  apply Forall_forall; intros c Hc; apply in_firstn_in in Hc;
  simpl in Hd; apply list_max_le in Hd;
  rewrite Forall_forall in Hd; specialize (Hd (S (depth c)) (in_map _ _ _ Hc));
  rewrite Forall_forall in IHcs.
  - lia.
  - intros w'. apply IHcs; [exact Hc| |lia].
    eapply incl_tran; [|exact Hincl]. apply child_subtrees_incl. exact Hc.
Qed.

End TreeServer.

(** Decidable side conditions on a tree, as the mock is built. *)
Fixpoint distinct_ids (l : list Z) : bool :=
  match l with
  | [] => true
  | x :: r => negb (existsb (Z.eqb x) r) && distinct_ids r
  end.

(** No folder has more than 100 subfolders. *)
Definition subfolders_bounded (t : ftree) : bool :=
  forallb (fun n => Nat.leb (length (node_children n)) 100) (subtrees t).

Definition page_bounded (t : ftree) : bool :=
  forallb (fun n => Nat.leb (length (node_items n)) 100 && Nat.leb (length (node_children n)) 100)
    (subtrees t).

Lemma distinct_ids_NoDup l : distinct_ids l = true -> NoDup l.
Proof.
  induction l as [|x r IH]; simpl; intros H; constructor.
  - apply andb_true_iff in H as [H _]. apply negb_true_iff in H.
    intros Hin. assert (existsb (Z.eqb x) r = true) as Hc.
    { apply existsb_exists. exists x. split; [exact Hin | apply Z.eqb_refl]. }
    congruence.
  - apply andb_true_iff in H as [_ H]. apply IH. exact H.
Qed.

Lemma first_page_items_bounded t : page_bounded t = true -> first_page_items t = all_items t.
Proof.
  induction t as [i its cs IHcs] using ftree_ind'. intros Hb.
  unfold page_bounded in Hb. simpl in Hb.
  apply andb_true_iff in Hb as [Hroot Hrest].
  apply andb_true_iff in Hroot as [Hi Hc]. apply Nat.leb_le in Hi, Hc.
  cbn [first_page_items all_items]. rewrite (firstn_all2 its) by exact Hi.
  rewrite (firstn_all2 (map first_page_items cs)) by (rewrite length_map; exact Hc).
  f_equal. f_equal. apply map_ext_in. intros c Hin.
  rewrite Forall_forall in IHcs. apply IHcs; [exact Hin|].
  unfold page_bounded. apply forallb_forall. intros x Hx.
  rewrite forallb_forall in Hrest. apply Hrest.
  apply in_concat. exists (subtrees c). split; [apply in_map; exact Hin | exact Hx].
Qed.

(** A folder holding 101 items. *)
Definition big_folder : ftree :=
  FNode 1 (map (fun k => JInt (Z.of_nat k)) (seq 0 101)) [].

(** ** The outcome of one library call *)

Lemma checked_get_world serve path ps failure w :
  snd (checked_get serve path ps failure w)
  = log_request (mk_request (urljoin (env_url w) path) ps) w.
Proof.
  unfold checked_get, bind, getenv, requests_get. unfold env_url.
  destruct (serve _) as [e|resp]; [reflexivity|]. simpl.
  destruct (negb (status_code resp =? 200)%Z); [reflexivity|].
  unfold response_json. destruct (body resp) as [data|]; [|reflexivity]. simpl.
  unfold getitem, lift. destruct (lookup_key data "success") as [e|s]; [reflexivity|].
  destruct (truthy s); [reflexivity|].
  destruct (lookup_key data "error") as [e|err]; [reflexivity|].
  destruct (lookup_key err "code"); reflexivity.
Qed.

Lemma checked_get_status serve path ps failure w resp :
  serve (mk_request (urljoin (env_url w) path) ps) = inr resp ->
  status_code resp <> 200%Z ->
  fst (checked_get serve path ps failure w)
  = inl (SynologyPhotoError [Lit "Request failed: "; Val (JInt (status_code resp))]).
Proof.
  intros Hs Hc. unfold checked_get, bind, getenv, requests_get.
  unfold env_url in Hs. rewrite Hs. simpl.
  apply Z.eqb_neq in Hc. rewrite Hc. reflexivity.
Qed.

Lemma checked_get_vendor serve path ps failure w resp data s err code :
  serve (mk_request (urljoin (env_url w) path) ps) = inr resp ->
  status_code resp = 200%Z -> body resp = Some data ->
  lookup_key data "success" = inr s -> truthy s = false ->
  lookup_key data "error" = inr err -> lookup_key err "code" = inr code ->
  fst (checked_get serve path ps failure w)
  = inl (SynologyPhotoError [Lit failure; Val code]).
Proof.
  intros Hs Hc Hb Hk Ht He Hco. unfold checked_get, bind, getenv, requests_get.
  unfold env_url in Hs. rewrite Hs, Hc. simpl.
  unfold response_json. rewrite Hb. simpl. unfold getitem, lift.
  rewrite Hk, Ht. simpl. rewrite He. simpl. rewrite Hco. reflexivity.
Qed.

(** The library calls with one request each; [get_items] is listed
    without recursion, [add_tag] returns None. *)
Inductive api_call : Type :=
| CallAuthenticate (username password : json)
| CallGetApiInfo
| CallGetFolders (sid folder_id : json)
| CallGetItems (sid folder_id : json)
| CallGetAllTags (sid : json)
| CallAddTag (sid item_ids tag_ids : json).

Definition run_call (serve : request -> exn + response) (c : api_call) : M json :=
  match c with
  | CallAuthenticate u p => authenticate serve u p
  | CallGetApiInfo => get_api_info serve
  | CallGetFolders sid fid => get_folders serve sid fid
  | CallGetItems sid fid => get_items serve 0 sid fid false
  | CallGetAllTags sid => get_all_tags serve sid
  | CallAddTag sid ids tags => add_tag serve sid ids tags ;;; ret JNull
  end.

Definition call_path (c : api_call) : string :=
  match c with
  | CallAuthenticate _ _ => "webapi/auth.cgi"
  | CallGetApiInfo => "webapi/query.cgi"
  | _ => "webapi/entry.cgi"
  end.

Definition call_params (c : api_call) : list (string * json) :=
  match c with
  | CallAuthenticate u p => auth_params u p
  | CallGetApiInfo => api_info_params
  | CallGetFolders sid fid => folders_params sid fid
  | CallGetItems sid fid => items_params sid fid
  | CallGetAllTags sid => tags_params sid
  | CallAddTag sid ids tags => add_tag_params sid ids tags
  end.

Definition call_failure (c : api_call) : string :=
  match c with
  | CallAuthenticate _ _ => "Authentication failed: "
  | CallGetApiInfo => "Failed to get API Info: "
  | CallGetFolders _ _ => "Failed to get root folders: "
  | CallGetItems _ _ => "Failed to get items: "
  | CallGetAllTags _ => "Failed to get all tags: "
  | CallAddTag _ _ _ => "Failed to add tags: "
  end.

(** What each call returns from the decoded body [data]. *)
Definition call_payload (c : api_call) (data : json) : exn + json :=
  match c with
  | CallAuthenticate _ _ =>
      match lookup_key data "data" with inr d => lookup_key d "sid" | inl e => inl e end
  | CallGetApiInfo => lookup_key data "data"
  | CallGetFolders _ _ | CallGetItems _ _ | CallGetAllTags _ =>
      match lookup_key data "data" with inr d => lookup_key d "list" | inl e => inl e end
  | CallAddTag _ _ _ => inr JNull
  end.

Lemma run_call_checked serve c w :
  (forall e w', checked_get serve (call_path c) (call_params c) (call_failure c) w = (inl e, w') ->
     fst (run_call serve c w) = inl e)
  /\ (forall data w', checked_get serve (call_path c) (call_params c) (call_failure c) w = (inr data, w') ->
     fst (run_call serve c w) = call_payload c data).
Proof.
  split; intros ? w' H; destruct c; cbn [call_path call_params call_failure] in H;
  cbn [run_call get_items call_payload];
  unfold authenticate, get_api_info, get_folders, get_all_tags, add_tag, bind, getitem, lift;
  rewrite H; simpl; try reflexivity;
  destruct (lookup_key _ "data"); try reflexivity; simpl;
  destruct (lookup_key _ "list"); reflexivity.
Qed.

(** A server answering every request with HTTP 500 and a vendor error body. *)
Definition failing_server (r : request) : exn + response :=
  inr (mk_response 500 (Some (JObj [("success", JBool false);
                                   ("error", JObj [("code", JInt 119)])]))).

(** ** Tag lookup *)

Definition has_name (tag : json) : bool :=
  match lookup_key tag "name" with inr _ => true | inl _ => false end.

Lemma py_eq_str_true v s : py_eq_str v s = true <-> v = JStr s.
Proof.
  destruct v; simpl; split; intros H; try discriminate.
  - apply String.eqb_eq in H. subst. reflexivity.
  - injection H as ->. apply String.eqb_refl.
Qed.

Lemma get_tag_listing serve sid tag_name w tags w' :
  get_all_tags serve sid w = (inr (JList tags), w') ->
  get_tag serve sid tag_name w = find_tag tag_name tags w'.
Proof.
  intros H. unfold get_tag. rewrite (bind_inr _ _ _ _ _ H). reflexivity.
Qed.

Lemma find_tag_found tag_name tags w tag :
  fst (find_tag tag_name tags w) = inr tag -> lookup_key tag "name" = inr (JStr tag_name).
Proof.
  revert w. induction tags as [|t r IH]; intros w; simpl; [discriminate|].
  unfold bind, getitem, lift. destruct (lookup_key t "name") as [e|v] eqn:E;
    simpl; [discriminate|].
  destruct (py_eq_str v tag_name) eqn:Eq.
  - intros H. injection H as <-. apply py_eq_str_true in Eq. subst. exact E.
  - apply IH.
Qed.

Lemma find_tag_absent tag_name tags w :
  forallb has_name tags = true ->
  (forall tag, In tag tags -> lookup_key tag "name" <> inr (JStr tag_name)) ->
  fst (find_tag tag_name tags w) = inl (tag_not_found tag_name).
Proof.
  revert w. induction tags as [|t r IH]; intros w Hn Hnot; simpl; [reflexivity|].
  simpl in Hn. apply andb_true_iff in Hn as [Ht Hr]. unfold has_name in Ht.
  unfold bind, getitem, lift. destruct (lookup_key t "name") as [e|v] eqn:E;
    [discriminate|]. simpl.
  destruct (py_eq_str v tag_name) eqn:Eq.
  - apply py_eq_str_true in Eq. subst. exfalso. apply (Hnot t); [left; reflexivity | exact E].
  - apply IH; [exact Hr|]. intros tag Hin. apply Hnot. right. exact Hin.
Qed.

Lemma find_tag_first tag_name l1 tag l2 w :
  Forall (fun t => exists v, lookup_key t "name" = inr v /\ v <> JStr tag_name) l1 ->
  lookup_key tag "name" = inr (JStr tag_name) ->
  fst (find_tag tag_name (l1 ++ tag :: l2) w) = inr tag.
Proof.
  intros H1 Ht. revert w. induction H1 as [|t r [v [Hv Hne]] Hr IH]; intros w; simpl.
  - unfold bind, getitem, lift. rewrite Ht. simpl. rewrite String.eqb_refl. reflexivity.
  - unfold bind at 1, getitem, lift. rewrite Hv.
    destruct (py_eq_str v tag_name) eqn:Eq.
    + apply py_eq_str_true in Eq. contradiction.
    + apply IH.
Qed.

Lemma find_tag_present tag_name tags w :
  forallb has_name tags = true ->
  (exists tag, In tag tags /\ lookup_key tag "name" = inr (JStr tag_name)) ->
  exists tag, fst (find_tag tag_name tags w) = inr tag.
Proof.
  revert w. induction tags as [|t r IH]; intros w Hn [tag [Hin Htag]]; [contradiction|].
  simpl in Hn. apply andb_true_iff in Hn as [Ht Hr]. unfold has_name in Ht.
  simpl. unfold bind at 1, getitem, lift.
  destruct (lookup_key t "name") as [e|v] eqn:E; [discriminate|].
  destruct (py_eq_str v tag_name) eqn:Eq.
  - exists t. reflexivity.
  - destruct Hin as [<-|Hin].
    + rewrite Htag in E. injection E as <-. simpl in Eq. rewrite String.eqb_refl in Eq.
      discriminate.
    + apply IH; [exact Hr|]. exists tag. split; assumption.
Qed.

(** A server answering every request with the listing [l]. *)
Definition list_serve (l : list json) (r : request) : exn + response := inr (ok_list l).

Definition sample_tags : list json :=
  [JObj [("id", JInt 1); ("name", JStr "abc")];
   JObj [("id", JInt 2); ("name", JStr "ABC")];
   JObj [("id", JInt 3); ("name", JStr "ABC")]].

(** A tag listing whose first tag has no 'name'. *)
Definition unnamed_first_tags : list json :=
  [JObj [("id", JInt 1)]; JObj [("id", JInt 2); ("name", JStr "U20F")]].

(** Two tags named 'ABC', after a tag without a 'name'. *)
Definition unnamed_then_same_name_tags : list json :=
  [JObj [("id", JInt 1)]; JObj [("id", JInt 2); ("name", JStr "ABC")];
   JObj [("id", JInt 3); ("name", JStr "ABC")]].

(** ** Inversion of successful runs *)

Lemma bind_inr_inv {A B} (m : M A) (f : A -> M B) w b :
  fst (bind m f w) = inr b ->
  exists a w1, m w = (inr a, w1) /\ fst (f a w1) = inr b /\ snd (bind m f w) = snd (f a w1).
Proof.
  unfold bind. destruct (m w) as [[e|a] w1]; simpl; [discriminate|].
  intros H. exists a, w1. split; [reflexivity | split; [exact H | reflexivity]].
Qed.

Lemma lift_inr_inv {A} (r : exn + A) w a w1 : lift r w = (inr a, w1) -> r = inr a /\ w1 = w.
Proof. unfold lift. intros H. injection H as -> ->. split; reflexivity. Qed.

Lemma map_m_getitem_inv key its w ids w1 :
  map_m (fun item => getitem item key) its w = (inr ids, w1) ->
  Forall2 (fun item id => lookup_key item key = inr id) its ids /\ w1 = w.
Proof.
  revert ids w1. induction its as [|it r IH]; intros ids w1 H; simpl in H.
  - injection H as <- <-. split; [constructor | reflexivity].
  - unfold bind at 1, getitem, lift in H.
    destruct (lookup_key it key) as [e|id] eqn:E; [discriminate|].
    unfold bind in H. destruct (map_m _ r w) as [[e|ids'] w2] eqn:E2; [discriminate|].
    injection H as <- <-. destruct (IH ids' w2 eq_refl) as [Hf ->].
    split; [constructor; assumption | reflexivity].
Qed.

Lemma get_tag_name serve sid tag_name w tag :
  fst (get_tag serve sid tag_name w) = inr tag -> lookup_key tag "name" = inr (JStr tag_name).
Proof.
  unfold get_tag. intros H.
  destruct (bind_inr_inv _ _ _ _ H) as [tags [w1 [_ [H1 _]]]].
  destruct (bind_inr_inv _ _ _ _ H1) as [ts [w2 [_ [H2 _]]]].
  eapply find_tag_found. exact H2.
Qed.

Lemma add_tag_world serve sid ids tags w :
  snd (add_tag serve sid ids tags w)
  = log_request (mk_request (urljoin (env_url w) "webapi/entry.cgi")
                            (add_tag_params sid ids tags)) w.
Proof.
  unfold add_tag, bind. rewrite <- (checked_get_world serve "webapi/entry.cgi"
                                      (add_tag_params sid ids tags) "Failed to add tags: " w).
  destruct (checked_get _ _ _ _ w) as [[e|d] w1]; reflexivity.
Qed.

Definition processing_message (team_name : string) : message :=
  [Lit "Processing team "; Val (JStr team_name); Lit "..."].

(** A server with the folder tree [t], the tag listing [tags], and
    accepting every add_tag request. *)
Definition photo_serve (t : ftree) (tags : list json) (r : request) : exn + response :=
  match param "method" r, param "api" r with
  | Some (JStr m), Some (JStr api) =>
      if String.eqb m "add_tag" then inr (mk_response 200 (Some (JObj [("success", JBool true)])))
      else if String.eqb api "SYNO.Foto.Browse.GeneralTag" then inr (ok_list tags)
      else tree_serve t r
  | _, _ => tree_serve t r
  end.

Definition team_tree : ftree :=
  FNode 3048 [JObj [("id", JInt 7)]; JObj [("id", JInt 8)]]
    [FNode 3049 [JObj [("id", JInt 9)]] []].

Definition team_tags : list json :=
  [JObj [("id", JInt 54); ("name", JStr "U18M-2")]; JObj [("id", JInt 55); ("name", JStr "U20F")]].

Example dumps_ids : dumps (JList [JInt 7; JInt 8; JInt (-9)]) = "[7, 8, -9]".
Proof. reflexivity. Qed.

Example dumps_indent :
  dumps_at (Some 4) 0 (JObj [("a", JList [JInt 1]); ("b", JList [])])
  = "{" ++ chr 10 ++ "    " ++ encode_string "a" ++ ": [" ++ chr 10 ++ "        1"
    ++ chr 10 ++ "    ]," ++ chr 10 ++ "    " ++ encode_string "b" ++ ": []" ++ chr 10 ++ "}".
Proof. reflexivity. Qed.

(** ** Scripts: lemmas *)

Definition outcome_ok_or_spe (r : exn + unit) : bool :=
  match r with
  | inr _ => true
  | inl (SynologyPhotoError _) => true
  | inl _ => false
  end.

(** Processing [teams] from [w] on, each team ends normally or with
    SynologyPhotoError, in the world the previous teams left. *)
Fixpoint teams_fail_only_spe (serve : request -> exn + response) (budget : nat) (sid : json)
  (teams : list (string * Z)) (w : world) : bool :=
  match teams with
  | [] => true
  | (team, fid) :: rest =>
      outcome_ok_or_spe (fst (process_team_body serve budget sid team fid w))
      && teams_fail_only_spe serve budget sid rest (snd (process_team serve budget sid team fid w))
  end.

(** All three variables set to non-empty values. *)
Definition env_complete (w : world) : bool :=
  forallb (fun var => truthy (py_of_env (env_lookup var (environ w)))) required_env.

Definition env_json (name : string) (w : world) : json := py_of_env (env_lookup name (environ w)).

Definition team_error_message (team_name : string) (m : message) : message :=
  Lit "Error processing team " :: Val (JStr team_name) :: Lit ": " :: m.

Lemma process_team_spe serve budget sid team fid w m w1 :
  process_team_body serve budget sid team fid w = (inl (SynologyPhotoError m), w1) ->
  process_team serve budget sid team fid w = (inr tt, log_err (team_error_message team m) w1).
Proof. intros H. unfold process_team, try_except. rewrite H. reflexivity. Qed.

Lemma process_team_ok serve budget sid team fid w :
  outcome_ok_or_spe (fst (process_team_body serve budget sid team fid w)) = true ->
  fst (process_team serve budget sid team fid w) = inr tt.
Proof.
  unfold process_team, try_except.
  destruct (process_team_body serve budget sid team fid w) as [[e|[]] w1]; simpl;
    [|reflexivity].
  destruct e; simpl; try discriminate. reflexivity.
Qed.

Lemma process_teams_ok serve budget sid teams w :
  teams_fail_only_spe serve budget sid teams w = true ->
  fst (process_teams serve budget sid teams w) = inr tt.
Proof.
  revert w. induction teams as [|[team fid] r IH]; intros w H; [reflexivity|].
  simpl in H. apply andb_true_iff in H as [H1 H2].
  simpl. unfold bind.
  pose proof (process_team_ok serve budget sid team fid w H1) as Hp.
  destruct (process_team serve budget sid team fid w) as [[e|[]] w1]; simpl in Hp, H2;
    [discriminate|].
  apply IH. exact H2.
Qed.

Lemma missing_vars_spec vars w :
  missing_vars vars w
  = (inr (filter (fun var => negb (truthy (py_of_env (env_lookup var (environ w))))) vars), w).
Proof.
  induction vars as [|v r IH]; [reflexivity|]. simpl. unfold bind at 1, getenv.
  unfold bind. rewrite IH. destruct (truthy _); reflexivity.
Qed.

Lemma add_tags_main_unfold serve budget dotenv w :
  add_tags_main serve budget dotenv w
  = let w1 := snd (load_dotenv dotenv w) in
    if env_complete w1 then
      try_except
        (username <- getenv "SYNOLOGY_PHOTO_USERNAME" ;;
         password <- getenv "SYNOLOGY_PHOTO_PASSWORD" ;;
         sid <- authenticate serve (py_of_env username) (py_of_env password) ;;
         print [Lit "Processing "; Val (JInt (Z.of_nat (length team_folders_id))); Lit " teams..."] ;;;
         process_teams serve budget sid team_folders_id ;;;
         print [Lit "All teams processed successfully"])
        fatal_error w1
    else (inl (SystemExit 1),
          log_err [Lit "Missing required environment variables: ";
                   Lit (String.concat ", "
                     (filter (fun var => negb (truthy (py_of_env (env_lookup var (environ w1)))))
                        required_env))] w1).
Proof.
  unfold add_tags_main. cbv zeta.
  set (w1 := snd (load_dotenv dotenv w)).
  assert (Hl : load_dotenv dotenv w = (inr tt, w1)) by reflexivity.
  unfold bind at 1. rewrite Hl.
  unfold bind at 1. rewrite missing_vars_spec.
  unfold env_complete.
  cbn [required_env filter forallb].
  destruct (truthy (py_of_env (env_lookup "SYNOLOGY_PHOTO_USERNAME" (environ w1))));
  destruct (truthy (py_of_env (env_lookup "SYNOLOGY_PHOTO_PASSWORD" (environ w1))));
  destruct (truthy (py_of_env (env_lookup "SYNOLOGY_PHOTO_URL" (environ w1))));
  reflexivity.
Qed.

(** An authentication endpoint that accepts any login; every other request
    gets a vendor error. *)
Definition auth_only_serve (r : request) : exn + response :=
  match param "api" r with
  | Some (JStr api) =>
      if String.eqb api "SYNO.API.Auth"
      then inr (mk_response 200 (Some (JObj [("success", JBool true);
                                            ("data", JObj [("sid", JStr "s1d")])])))
      else inr (vendor_error 803)
  | _ => inr (vendor_error 101)
  end.

Definition bot_dotenv : list (string * string) :=
  [("SYNOLOGY_PHOTO_USERNAME", "bot"); ("SYNOLOGY_PHOTO_PASSWORD", "pw")].

(** A server answering every request with success and an empty payload. *)
Definition ok_serve (r : request) : exn + response :=
  inr (mk_response 200 (Some (JObj [("success", JBool true); ("data", JObj [])]))).

Lemma report_and_exit_status e w :
  is_Exception e = true ->
  exit_status (fst (match report_and_exit e with
                    | Some h => h w
                    | None => (inl e, w)
                    end)) = 1%Z.
Proof. intros H. unfold report_and_exit. rewrite H. reflexivity. Qed.

(** ** Requests issued by a computation *)

(** Every request [m] sends satisfies [P]. *)
Definition issues (P : request -> Prop) {A} (m : M A) : Prop :=
  forall w, exists new, requests_log (snd (m w)) = app (requests_log w) new /\ Forall P new.

Definition keeps_world {A} (m : M A) : Prop := forall w, snd (m w) = w.

Definition has_sid (sid : json) (r : request) : Prop := In ("_sid", sid) (params r).

Definition first_page_request (r : request) : Prop :=
  In ("offset", JInt 0) (params r) /\ In ("limit", JInt 100) (params r).

Section Issues.
Variable P : request -> Prop.

Lemma issues_keeps {A} (m : M A) : keeps_world m -> issues P m.
Proof. intros H w. exists []. rewrite H, app_nil_r. split; [reflexivity | constructor]. Qed.

Lemma issues_bind {A B} (m : M A) (f : A -> M B) :
  issues P m -> (forall a, issues P (f a)) -> issues P (bind m f).
Proof.
  intros Hm Hf w. unfold bind. destruct (Hm w) as [n1 [E1 F1]].
  destruct (m w) as [[e|a] w1]; simpl in *.
  - exists n1. split; assumption.
  - destruct (Hf a w1) as [n2 [E2 F2]]. exists (app n1 n2).
    rewrite E2, E1, app_assoc. split; [reflexivity | apply Forall_app; split; assumption].
Qed.

Lemma issues_checked_get serve path ps failure :
  (forall u, P (mk_request u ps)) -> issues P (checked_get serve path ps failure).
Proof.
  intros H w. rewrite checked_get_world. exists [mk_request (urljoin (env_url w) path) ps].
  split; [reflexivity | constructor; [apply H | constructor]].
Qed.

Lemma issues_extend_loop (sub : json -> M json) fs items :
  (forall fid, issues P (sub fid)) -> issues P (extend_loop sub fs items).
Proof.
  revert items. induction fs as [|f r IH]; intros items Hs; simpl.
  - apply issues_keeps. intros w. reflexivity.
  - apply issues_bind; [apply issues_keeps; intros w; unfold extend_method;
                         destruct items; reflexivity|]. intros l.
    apply issues_bind; [apply issues_keeps; intros w; reflexivity|]. intros fid.
    apply issues_bind; [apply Hs|]. intros s.
    apply issues_bind; [|intros; apply IH; exact Hs].
    apply issues_keeps. intros w. unfold py_extend, bind, py_iter, lift.
    destruct (iter_json s); reflexivity.
Qed.

End Issues.

Lemma keeps_lookups (data : json) (k1 k2 : string) :
  keeps_world (d <- getitem data k1 ;; getitem d k2).
Proof.
  intros w. unfold bind, getitem, lift. destruct (lookup_key data k1); reflexivity.
Qed.

Lemma checked_then_pure serve path ps failure {A} (k : json -> M A) w :
  (forall d, keeps_world (k d)) ->
  snd (bind (checked_get serve path ps failure) k w)
  = log_request (mk_request (urljoin (env_url w) path) ps) w.
Proof.
  intros H. unfold bind. rewrite <- (checked_get_world serve path ps failure w).
  destruct (checked_get serve path ps failure w) as [[e|d] w1]; simpl; [reflexivity | apply H].
Qed.

Lemma get_folders_world serve sid fid w :
  snd (get_folders serve sid fid w)
  = log_request (mk_request (urljoin (env_url w) "webapi/entry.cgi") (folders_params sid fid)) w.
Proof. apply checked_then_pure. intros d. apply keeps_lookups. Qed.

Lemma get_all_tags_world serve sid w :
  snd (get_all_tags serve sid w)
  = log_request (mk_request (urljoin (env_url w) "webapi/entry.cgi") (tags_params sid)) w.
Proof. apply checked_then_pure. intros d. apply keeps_lookups. Qed.

Lemma get_api_info_world serve w :
  snd (get_api_info serve w)
  = log_request (mk_request (urljoin (env_url w) "webapi/query.cgi") api_info_params) w.
Proof. apply checked_then_pure. intros d w'. reflexivity. Qed.

Lemma authenticate_world serve u p w :
  snd (authenticate serve u p w)
  = log_request (mk_request (urljoin (env_url w) "webapi/auth.cgi") (auth_params u p)) w.
Proof. apply checked_then_pure. intros d. apply keeps_lookups. Qed.

Lemma get_items_flat_world serve fuel sid fid w :
  snd (get_items serve fuel sid fid false w)
  = log_request (mk_request (urljoin (env_url w) "webapi/entry.cgi") (items_params sid fid)) w.
Proof.
  destruct fuel; cbn [get_items]; apply checked_then_pure; intros d w';
    unfold bind, getitem, lift; destruct (lookup_key d "data"); try reflexivity;
    simpl; destruct (lookup_key _ "list"); reflexivity.
Qed.

Lemma issues_get_folders P serve sid fid :
  (forall u, P (mk_request u (folders_params sid fid))) -> issues P (get_folders serve sid fid).
Proof.
  intros H. apply issues_bind; [apply issues_checked_get; exact H|].
  intros d. apply issues_keeps. apply keeps_lookups.
Qed.

Lemma issues_get_all_tags P serve sid :
  (forall u, P (mk_request u (tags_params sid))) -> issues P (get_all_tags serve sid).
Proof.
  intros H. apply issues_bind; [apply issues_checked_get; exact H|].
  intros d. apply issues_keeps. apply keeps_lookups.
Qed.

Lemma issues_find_tag P name tags : issues P (find_tag name tags).
Proof.
  apply issues_keeps. induction tags as [|t r IH]; intros w; [reflexivity|]. simpl.
  unfold bind at 1, getitem, lift. destruct (lookup_key t "name"); [reflexivity|].
  destruct (py_eq_str _ name); [reflexivity | apply IH].
Qed.

Lemma issues_get_tag P serve sid name :
  (forall u, P (mk_request u (tags_params sid))) -> issues P (get_tag serve sid name).
Proof.
  intros H. apply issues_bind; [apply issues_get_all_tags; exact H|]. intros tags.
  apply issues_bind; [apply issues_keeps; intros w; reflexivity|]. intros ts.
  apply issues_find_tag.
Qed.

Lemma issues_add_tag P serve sid ids tags :
  (forall u, P (mk_request u (add_tag_params sid ids tags))) ->
  issues P (add_tag serve sid ids tags).
Proof.
  intros H. apply issues_bind; [apply issues_checked_get; exact H|].
  intros d. apply issues_keeps. intros w. reflexivity.
Qed.

Lemma issues_get_items P serve sid :
  (forall u fid, P (mk_request u (items_params sid fid)) /\ P (mk_request u (folders_params sid fid))) ->
  forall fuel fid recursive, issues P (get_items serve fuel sid fid recursive).
Proof.
  intros H. induction fuel as [|fuel IH]; intros fid recursive; cbn [get_items];
  (apply issues_bind; [apply issues_checked_get; intros u; apply H|]); intros data;
  (apply issues_bind; [apply issues_keeps; intros w; reflexivity|]); intros d;
  (apply issues_bind; [apply issues_keeps; intros w; reflexivity|]); intros items;
  (destruct recursive; [|apply issues_keeps; intros w; reflexivity]);
  (apply issues_bind; [apply issues_get_folders; intros u; apply H|]); intros folders;
  (apply issues_bind; [apply issues_keeps; intros w; reflexivity|]); intros fs;
  apply issues_extend_loop; intros fid'.
  - apply issues_keeps. intros w. reflexivity.
  - apply IH.
Qed.

(** ** Files *)

Lemma makedirs_inl p w e w1 : makedirs p w = (inl e, w1) -> w1 = w.
Proof. unfold makedirs. destruct (existsb _ _); intros H; [injection H as _ <-; reflexivity | discriminate]. Qed.

Lemma makedirs_inr_files p w w1 : makedirs p w = (inr tt, w1) -> files w1 = files w.
Proof. unfold makedirs. destruct (existsb _ _); intros H; [discriminate | injection H as <-; reflexivity]. Qed.

Lemma report_and_exit_files e w :
  files (snd (match report_and_exit e with Some h => h w | None => (inl e, w) end)) = files w.
Proof. unfold report_and_exit. destruct (is_Exception e); reflexivity. Qed.

Lemma files_contents p w1 w2 : files w1 = files w2 -> file_contents p w1 = file_contents p w2.
Proof. intros H. unfold file_contents. rewrite H. reflexivity. Qed.

(** ** What the library changes besides the request log *)

(** [w'] differs from [w] at most in the requests sent. *)
Definition same_but_requests (w w' : world) : Prop :=
  environ w' = environ w /\ stdout w' = stdout w /\ stderr w' = stderr w
  /\ dirs w' = dirs w /\ files w' = files w.

Definition quiet {A} (m : M A) : Prop := forall w, same_but_requests w (snd (m w)).

Lemma same_refl w : same_but_requests w w.
Proof. repeat split. Qed.

Lemma same_trans w1 w2 w3 :
  same_but_requests w1 w2 -> same_but_requests w2 w3 -> same_but_requests w1 w3.
Proof. unfold same_but_requests. intuition congruence. Qed.

Lemma quiet_keeps {A} (m : M A) : keeps_world m -> quiet m.
Proof. intros H w. rewrite H. apply same_refl. Qed.

Lemma quiet_bind {A B} (m : M A) (f : A -> M B) :
  quiet m -> (forall a, quiet (f a)) -> quiet (bind m f).
Proof.
  intros Hm Hf w. unfold bind. specialize (Hm w).
  destruct (m w) as [[e|a] w1]; simpl in *; [exact Hm|].
  eapply same_trans; [exact Hm | apply Hf].
Qed.

Lemma quiet_ret {A} (a : A) : quiet (ret a).
Proof. apply quiet_keeps. intros w. reflexivity. Qed.

Lemma quiet_raise {A} e : quiet (@raise A e).
Proof. apply quiet_keeps. intros w. reflexivity. Qed.

Lemma quiet_lift {A} (r : exn + A) : quiet (lift r).
Proof. apply quiet_keeps. intros w. reflexivity. Qed.

Lemma quiet_checked_get serve path ps failure : quiet (checked_get serve path ps failure).
Proof. intros w. rewrite checked_get_world. repeat split. Qed.

Lemma quiet_extend_method items : quiet (extend_method items).
Proof. apply quiet_keeps. intros w. unfold extend_method. destruct items; reflexivity. Qed.

Lemma quiet_py_extend l s : quiet (py_extend l s).
Proof.
  apply quiet_keeps. intros w. unfold py_extend, bind, py_iter, lift.
  destruct (iter_json s); reflexivity.
Qed.

Ltac quiet_step :=
  first [ apply quiet_checked_get | apply quiet_extend_method | apply quiet_py_extend
        | apply quiet_ret | apply quiet_raise | apply quiet_lift
        | progress unfold getitem, py_iter
        | apply quiet_bind; [|intros ?] ].

Lemma quiet_extend_loop (sub : json -> M json) fs items :
  (forall fid, quiet (sub fid)) -> quiet (extend_loop sub fs items).
Proof.
  revert items. induction fs as [|f r IH]; intros items Hs; simpl;
    repeat quiet_step; auto.
Qed.

Lemma quiet_get_folders serve sid fid : quiet (get_folders serve sid fid).
Proof. unfold get_folders. repeat quiet_step. Qed.

Lemma quiet_get_items serve sid :
  forall fuel fid recursive, quiet (get_items serve fuel sid fid recursive).
Proof.
  induction fuel as [|fuel IH]; intros fid recursive; cbn [get_items];
    repeat quiet_step; destruct recursive; repeat quiet_step;
    try apply quiet_get_folders; apply quiet_extend_loop; intros fid'; auto.
  apply quiet_raise.
Qed.

Lemma quiet_get_all_tags serve sid : quiet (get_all_tags serve sid).
Proof. unfold get_all_tags. repeat quiet_step. Qed.

Lemma quiet_find_tag name tags : quiet (find_tag name tags).
Proof.
  induction tags as [|t r IH]; simpl; repeat quiet_step.
  destruct (py_eq_str _ name); [apply quiet_ret | exact IH].
Qed.

Lemma quiet_get_tag serve sid name : quiet (get_tag serve sid name).
Proof.
  unfold get_tag. apply quiet_bind; [apply quiet_get_all_tags|]. intros tags.
  repeat quiet_step. apply quiet_find_tag.
Qed.

Lemma quiet_add_tag serve sid ids tags : quiet (add_tag serve sid ids tags).
Proof. unfold add_tag. repeat quiet_step. Qed.

Lemma quiet_authenticate serve u p : quiet (authenticate serve u p).
Proof. unfold authenticate. repeat quiet_step. Qed.

Lemma quiet_get_api_info serve : quiet (get_api_info serve).
Proof. unfold get_api_info. repeat quiet_step. Qed.

Lemma quiet_map_m_getitem key its : quiet (map_m (fun item => getitem item key) its).
Proof. induction its as [|it r IH]; simpl; repeat quiet_step; exact IH. Qed.

(** ** Requests of a recursive listing *)

(** The folders a recursive listing reaches: the folder, then those
    reached from the first page of its subfolders, in preorder. *)
Fixpoint visited_folders (t : ftree) : list ftree :=
  match t with
  | FNode _ _ cs => t :: concat (firstn 100 (map visited_folders cs))
  end.

(** The two requests [get_items] sends for one folder: its item listing,
    then its subfolder listing. *)
Definition listing_requests (u : url) (sid : json) (n : ftree) : list request :=
  [mk_request u (items_params sid (JInt (node_id n)));
   mk_request u (folders_params sid (JInt (node_id n)))].

Lemma flat_map_concat {A B} (f : A -> list B) (l : list (list A)) :
  flat_map f (concat l) = flat_map (flat_map f) l.
Proof.
  induction l as [|x r IH]; [reflexivity|]. simpl. rewrite flat_map_app, IH. reflexivity.
Qed.

Lemma env_url_quiet {A} (m : M A) w : quiet m -> env_url (snd (m w)) = env_url w.
Proof. intros H. unfold env_url. destruct (H w) as [E _]. rewrite E. reflexivity. Qed.

Lemma extend_loop_log (sub : json -> M json) (R : option string -> ftree -> list request)
  cs acc w :
  Forall (fun c => forall w,
            fst (sub (JInt (node_id c)) w) = inr (JList (first_page_items c))
            /\ requests_log (snd (sub (JInt (node_id c)) w)) = app (requests_log w) (R (env_url w) c)
            /\ env_url (snd (sub (JInt (node_id c)) w)) = env_url w) cs ->
  requests_log (snd (extend_loop sub (map folder_entry cs) (JList acc) w))
  = app (requests_log w) (flat_map (R (env_url w)) cs)
  /\ env_url (snd (extend_loop sub (map folder_entry cs) (JList acc) w)) = env_url w.
Proof.
  revert acc w. induction cs as [|c cs IH]; intros acc w Hall.
  - simpl. rewrite app_nil_r. split; reflexivity.
  - inversion Hall as [|? ? Hc Hcs]; subst.
    destruct (Hc w) as [Hf [Hl He]].
    destruct (sub (JInt (node_id c)) w) as [r w1] eqn:E.
    simpl in Hf, Hl, He. subst r.
    assert (Hstep : extend_loop sub (map folder_entry (c :: cs)) (JList acc) w
                    = extend_loop sub (map folder_entry cs) (JList (app acc (first_page_items c))) w1).
    { simpl. unfold bind, extend_method, getitem, lift, ret, py_extend, py_iter. simpl.
      rewrite E. reflexivity. }
    rewrite Hstep.
    destruct (IH (app acc (first_page_items c)) w1 Hcs) as [IHl IHe].
    cbn [flat_map]. rewrite IHl, IHe, Hl, He, app_assoc. split; reflexivity.
Qed.

Section TreeRequests.
Variable t : ftree.
Hypothesis Hnd : NoDup (map node_id (subtrees t)).

Lemma get_items_tree_log sid :
  forall n, incl (subtrees n) (subtrees t) ->
  forall fuel w, depth n <= fuel ->
  requests_log (snd (get_items (tree_serve t) fuel sid (JInt (node_id n)) true w))
  = app (requests_log w)
        (flat_map (listing_requests (urljoin (env_url w) "webapi/entry.cgi") sid)
                  (visited_folders n)).
Proof.
  intros n. induction n as [i its cs IHcs] using ftree_ind'.
  intros Hincl fuel w Hd.
  assert (Hn : In (FNode i its cs) (subtrees t)) by (apply Hincl; left; reflexivity).
  rewrite Forall_forall in IHcs.
  simpl in Hd. apply list_max_le in Hd. rewrite Forall_forall in Hd.
  set (R := fun b c => flat_map (listing_requests (urljoin b "webapi/entry.cgi") sid)
                                (visited_folders c)).
  assert (Hv : flat_map (listing_requests (urljoin (env_url w) "webapi/entry.cgi") sid)
                 (visited_folders (FNode i its cs))
               = app (listing_requests (urljoin (env_url w) "webapi/entry.cgi") sid (FNode i its cs))
                     (flat_map (R (env_url w)) (firstn 100 cs))).
  { cbn [visited_folders flat_map]. f_equal.
    rewrite firstn_map, flat_map_concat. unfold R.
    induction (firstn 100 cs) as [|c r IH]; [reflexivity|]. simpl. rewrite IH. reflexivity. }
  rewrite Hv. clear Hv.
  destruct fuel as [|f]; cbn [get_items];
  (erewrite bind_inr; [|apply checked_get_ok_list;
                         apply (tree_serve_items t Hnd _ sid (FNode i its cs) Hn)]);
  cbn [getitem lift lookup_key bind find fst snd String.eqb Ascii.eqb Bool.eqb];
  (erewrite bind_inr; [|apply (get_folders_tree t Hnd sid (FNode i its cs) _ Hn)]);
  cbn [getitem lift lookup_key bind find fst snd String.eqb Ascii.eqb Bool.eqb
       py_iter iter_json node_children node_items];
  rewrite !firstn_map;
  (match goal with
   | |- requests_log (snd (extend_loop ?sub _ _ ?w')) = _ =>
       destruct (extend_loop_log sub R (firstn 100 cs) (firstn 100 its) w') as [Hl _]
   end);
  try (rewrite Hl; cbn; rewrite <- !app_assoc; reflexivity);
  apply Forall_forall; intros c Hc; apply in_firstn_in in Hc;
  specialize (Hd (S (depth c)) (in_map _ _ _ Hc)).
  - lia.
  - intros w'.
    assert (Hsub : incl (subtrees c) (subtrees t)).
    { eapply incl_tran; [|exact Hincl]. apply child_subtrees_incl. exact Hc. }
    split; [apply (get_items_tree t Hnd); [exact Hsub | lia]|].
    split; [apply IHcs; [exact Hc | exact Hsub | lia]|].
    apply env_url_quiet, quiet_get_items.
Qed.

End TreeRequests.

Lemma visited_folders_bounded t : subfolders_bounded t = true -> visited_folders t = subtrees t.
Proof.
  induction t as [i its cs IHcs] using ftree_ind'. intros Hb.
  unfold subfolders_bounded in Hb. simpl in Hb.
  apply andb_true_iff in Hb as [Hc Hrest]. apply Nat.leb_le in Hc.
  cbn [visited_folders subtrees].
  rewrite (firstn_all2 (map visited_folders cs)) by (rewrite length_map; exact Hc).
  f_equal. f_equal. apply map_ext_in. intros c Hin.
  rewrite Forall_forall in IHcs. apply IHcs; [exact Hin|].
  unfold subfolders_bounded. apply forallb_forall. intros x Hx.
  rewrite forallb_forall in Hrest. apply Hrest.
  apply in_concat. exists (subtrees c). split; [apply in_map; exact Hin | exact Hx].
Qed.

(** ** Malformed responses *)

Lemma checked_get_transport serve path ps failure w e :
  serve (mk_request (urljoin (env_url w) path) ps) = inl e ->
  fst (checked_get serve path ps failure w) = inl e.
Proof.
  intros H. unfold checked_get, bind, getenv, requests_get. unfold env_url in H.
  rewrite H. reflexivity.
Qed.

Lemma checked_get_not_json serve path ps failure w resp :
  serve (mk_request (urljoin (env_url w) path) ps) = inr resp ->
  status_code resp = 200%Z -> body resp = None ->
  fst (checked_get serve path ps failure w) = inl JSONDecodeError.
Proof.
  intros Hs Hc Hb. unfold checked_get, bind, getenv, requests_get.
  unfold env_url in Hs. rewrite Hs, Hc. simpl. unfold response_json. rewrite Hb. reflexivity.
Qed.

Lemma checked_get_no_success serve path ps failure w resp data e :
  serve (mk_request (urljoin (env_url w) path) ps) = inr resp ->
  status_code resp = 200%Z -> body resp = Some data ->
  lookup_key data "success" = inl e ->
  fst (checked_get serve path ps failure w) = inl e.
Proof.
  intros Hs Hc Hb Hk. unfold checked_get, bind, getenv, requests_get.
  unfold env_url in Hs. rewrite Hs, Hc. simpl. unfold response_json. rewrite Hb. simpl.
  unfold getitem, lift. rewrite Hk. reflexivity.
Qed.

Lemma checked_get_no_error serve path ps failure w resp data s e :
  serve (mk_request (urljoin (env_url w) path) ps) = inr resp ->
  status_code resp = 200%Z -> body resp = Some data ->
  lookup_key data "success" = inr s -> truthy s = false ->
  lookup_key data "error" = inl e ->
  fst (checked_get serve path ps failure w) = inl e.
Proof.
  intros Hs Hc Hb Hk Ht He. unfold checked_get, bind, getenv, requests_get.
  unfold env_url in Hs. rewrite Hs, Hc. simpl. unfold response_json. rewrite Hb. simpl.
  unfold getitem, lift. rewrite Hk, Ht. simpl. rewrite He. reflexivity.
Qed.

Lemma run_call_checked_inl serve c w e :
  fst (checked_get serve (call_path c) (call_params c) (call_failure c) w) = inl e ->
  fst (run_call serve c w) = inl e.
Proof.
  intros H. destruct (checked_get serve (call_path c) (call_params c) (call_failure c) w)
    as [r w'] eqn:E. simpl in H. subst r.
  apply (proj1 (run_call_checked serve c w) e w' E).
Qed.

(** A server whose every answer is a 200 page that is not JSON. *)
Definition html_serve (r : request) : exn + response := inr (mk_response 200 None).

(** ** Tag lookup on a listing with an unnamed tag *)

Lemma find_tag_unnamed tag_name l1 tag l2 w e :
  Forall (fun t => exists v, lookup_key t "name" = inr v /\ v <> JStr tag_name) l1 ->
  lookup_key tag "name" = inl e ->
  fst (find_tag tag_name (app l1 (tag :: l2)) w) = inl e.
Proof.
  intros H1 Ht. revert w. induction H1 as [|t r [v [Hv Hne]] Hr IH]; intros w; simpl.
  - unfold bind, getitem, lift. rewrite Ht. reflexivity.
  - unfold bind at 1, getitem, lift. rewrite Hv.
    destruct (py_eq_str v tag_name) eqn:Eq.
    + apply py_eq_str_true in Eq. contradiction.
    + apply IH.
Qed.

(** ** What AddTags prints *)

Ltac quiet_lib :=
  first [ apply quiet_get_items | apply quiet_get_tag | apply quiet_add_tag
        | apply quiet_map_m_getitem | apply quiet_get_all_tags | apply quiet_get_folders
        | apply quiet_authenticate | apply quiet_get_api_info | quiet_step ].

Lemma process_team_body_world serve b sid team fid w :
  same_but_requests (log_out (processing_message team) w)
                    (snd (process_team_body serve b sid team fid w)).
Proof.
  unfold process_team_body.
  rewrite (bind_inr (print _) _ w tt (log_out (processing_message team) w)) by reflexivity.
  match goal with |- same_but_requests ?w' (snd (?m ?w')) => generalize w'; change (quiet m) end.
  repeat quiet_lib.
Qed.

Lemma process_team_stdout serve b sid team fid w :
  stdout (snd (process_team serve b sid team fid w))
  = app (stdout w) [processing_message team].
Proof.
  unfold process_team, try_except.
  destruct (process_team_body_world serve b sid team fid w) as [_ [Ho _]].
  destruct (process_team_body serve b sid team fid w) as [[e|u] w1]; simpl in Ho |- *;
    [|exact Ho].
  destruct e; simpl; exact Ho.
Qed.

(** A server granting every login, answering every other request as
    [serve] does. *)
Definition with_login (serve : request -> exn + response) (r : request) : exn + response :=
  match param "api" r with
  | Some (JStr api) =>
      if String.eqb api "SYNO.API.Auth"
      then inr (mk_response 200 (Some (JObj [("success", JBool true);
                                            ("data", JObj [("sid", JStr "s1d")])])))
      else serve r
  | _ => serve r
  end.

(** The first team's folder holds a photo entry without an 'id'. *)
Definition unnamed_item_tree : ftree := FNode 3048 [JObj [("filename", JStr "a.jpg")]] [].

(** Folder 3048 answers its item listing with an empty JSON object as
    'list' and has the subfolder 3049; every other request gets a vendor
    error. *)
Definition dict_list_serve (r : request) : exn + response :=
  match param "api" r, param "folder_id" r, param "id" r with
  | Some (JStr api), Some (JInt 3048), _ =>
      if String.eqb api "SYNO.Foto.Browse.Item"
      then inr (mk_response 200 (Some (JObj [("success", JBool true);
                                            ("data", JObj [("list", JObj [])])])))
      else inr (vendor_error 803)
  | Some (JStr api), _, Some (JInt 3048) =>
      if String.eqb api "SYNO.Foto.Browse.Folder"
      then inr (ok_list [JObj [("id", JInt 3049)]])
      else inr (vendor_error 803)
  | _, _, _ => inr (vendor_error 803)
  end.

(** The first team's folder is empty. *)
Definition empty_team_tree : ftree := FNode 3048 [] [].

Definition output_blocked_world : world :=
  mk_world [("SYNOLOGY_PHOTO_URL", "https://nas.local/")] [] [] [] [] [("/app/output", "x")].

Definition blank_user_world : world :=
  mk_world [("SYNOLOGY_PHOTO_URL", "https://nas.local/"); ("SYNOLOGY_PHOTO_USERNAME", EmptyString)]
    [] [] [] [] [].

(** ** The output directory and files of the dump scripts *)

Definition keeps_dirs {A} (m : M A) : Prop := forall w, dirs (snd (m w)) = dirs w.

Lemma keeps_dirs_bind {A B} (m : M A) (f : A -> M B) :
  keeps_dirs m -> (forall a, keeps_dirs (f a)) -> keeps_dirs (bind m f).
Proof.
  intros Hm Hf w. unfold bind. specialize (Hm w).
  destruct (m w) as [[e|a] w1]; simpl in *; [exact Hm|]. rewrite Hf. exact Hm.
Qed.

Lemma keeps_dirs_quiet {A} (m : M A) : quiet m -> keeps_dirs m.
Proof. intros H w. apply (H w). Qed.

Lemma keeps_dirs_try_report (m : M unit) :
  keeps_dirs m -> keeps_dirs (try_except m report_and_exit).
Proof.
  intros H w. unfold try_except. specialize (H w).
  destruct (m w) as [[e|u] w1]; simpl in *; [|exact H].
  unfold report_and_exit. destruct (is_Exception e); exact H.
Qed.

Lemma keeps_dirs_open_w p : keeps_dirs (open_w p).
Proof. intros w. unfold open_w. destruct (existsb _ _); reflexivity. Qed.

Lemma keeps_dirs_json_dump_file p data : keeps_dirs (json_dump_file p data).
Proof. intros w. reflexivity. Qed.

Lemma keeps_dirs_print m : keeps_dirs (print m).
Proof. intros w. reflexivity. Qed.

Lemma keeps_dirs_getenv name : keeps_dirs (getenv name).
Proof. intros w. reflexivity. Qed.

Ltac dirs_step :=
  first [ apply keeps_dirs_try_report
        | apply keeps_dirs_quiet;
          first [ apply quiet_get_api_info | apply quiet_authenticate
                | apply quiet_get_all_tags ]
        | apply keeps_dirs_open_w | apply keeps_dirs_json_dump_file
        | apply keeps_dirs_print | apply keeps_dirs_getenv
        | apply keeps_dirs_bind; [|intros ?] ].

Lemma load_makedirs_ok {A} (dotenv : list (string * string)) out w (k : M A) :
  existsb (fun pc => String.eqb (fst pc) out) (files (snd (load_dotenv dotenv w))) = false ->
  (load_dotenv dotenv ;;; makedirs out ;;; k) w
  = k (add_dir out (snd (load_dotenv dotenv w))).
Proof.
  intros H. rewrite (bind_inr _ _ w tt (snd (load_dotenv dotenv w))) by reflexivity.
  unfold bind at 1, makedirs. rewrite H.
  reflexivity.
Qed.

Lemma load_makedirs_fail {A} (dotenv : list (string * string)) out w (k : M A) :
  existsb (fun pc => String.eqb (fst pc) out) (files (snd (load_dotenv dotenv w))) = true ->
  (load_dotenv dotenv ;;; makedirs out ;;; k) w
  = (inl (OSError out), snd (load_dotenv dotenv w)).
Proof.
  intros H. rewrite (bind_inr _ _ w tt (snd (load_dotenv dotenv w))) by reflexivity.
  unfold bind at 1, makedirs. rewrite H.
  reflexivity.
Qed.

Lemma file_contents_written p c m w :
  file_contents p (log_out m (set_file p c w)) = Some c.
Proof. unfold file_contents. simpl. rewrite String.eqb_refl. reflexivity. Qed.

(** ** json.dumps of a list of integers *)

Lemma dumps_items_ints (l : list Z) :
  (fix items (l : list json) : list string :=
     match l with
     | [] => []
     | x :: r => dumps_at None 1 x :: items r
     end) (map JInt l) = map string_of_Z l.
Proof. induction l as [|z r IH]; simpl; [reflexivity | rewrite IH; reflexivity]. Qed.

(** ** .env loading *)

Lemma find_app_some {A} (f : A -> bool) l1 l2 x :
  find f l1 = Some x -> find f (app l1 l2) = Some x.
Proof.
  induction l1 as [|a r IH]; simpl; [discriminate|].
  destruct (f a); [trivial | exact IH].
Qed.

Lemma load_dotenv_keeps dotenv w name v :
  env_lookup name (environ w) = Some v ->
  env_lookup name (environ (snd (load_dotenv dotenv w))) = Some v.
Proof.
  unfold env_lookup. simpl.
  destruct (find _ (environ w)) as [kv|] eqn:E; simpl; [|discriminate].
  intros H. erewrite find_app_some by exact E. exact H.
Qed.

(** * Claims *)

(** C1 (amended). Against a server holding a folder tree with distinct
    folder ids, whose listings return the requested page, [get_items] with
    [recursive=True] on the root returns the first page (100 entries) of
    the items of each folder reached, descending into the first page of
    subfolders of each folder, in preorder; when no folder has more than
    100 items or 100 subfolders, this is exactly the items of the folder
    and of all its descendants, each once. *)
Theorem get_items_recursive_tree (t : ftree) (sid : json) (fuel : nat) (w : world) :
  distinct_ids (map node_id (subtrees t)) = true -> depth t <= fuel ->
  fst (get_items (tree_serve t) fuel sid (JInt (node_id t)) true w)
    = inr (JList (first_page_items t))
  /\ (page_bounded t = true ->
      fst (get_items (tree_serve t) fuel sid (JInt (node_id t)) true w)
        = inr (JList (all_items t))).
Proof.
  intros Hd Hf.
  assert (H : fst (get_items (tree_serve t) fuel sid (JInt (node_id t)) true w)
              = inr (JList (first_page_items t))).
  { apply get_items_tree; [apply distinct_ids_NoDup; exact Hd | apply incl_refl | exact Hf]. }
  split; [exact H|]. intros Hb. rewrite H, first_page_items_bounded by exact Hb. reflexivity.
Qed.

Lemma get_items_recursive_tree_witness :
  (distinct_ids (map node_id (subtrees sample_tree)) = true /\ depth sample_tree <= 2)
  /\ fst (get_items (tree_serve sample_tree) 2 (JStr "sid") (JInt 1) true empty_world)
     = inr (JList (all_items sample_tree)).
Proof.
  split; [split; [reflexivity | simpl; lia]|].
  apply (get_items_recursive_tree sample_tree (JStr "sid") 2 empty_world);
    [reflexivity | simpl; lia | reflexivity].
Defined.

(** C1 counterexample: a folder with 101 items; the recursive listing
    returns 100 of them. *)
Lemma get_items_recursive_omits :
  exists l, fst (get_items (tree_serve big_folder) 0 (JStr "sid") (JInt 1) true empty_world)
            = inr (JList l)
         /\ length l = 100 /\ length (all_items big_folder) = 101.
Proof. vm_compute. eexists. split; [reflexivity | split; reflexivity]. Qed.

(** C2 (amended). For each library call with a single request
    (authenticate, get_api_info, get_folders, get_items without recursion,
    get_all_tags, add_tag): a non-200 response raises SynologyPhotoError
    carrying the HTTP status code; a 200 response whose decoded body has a
    false success flag raises SynologyPhotoError carrying the vendor code
    [data['error']['code']]; a 200 response with a true success flag returns
    the call's part of the decoded body without raising. *)
Theorem api_call_outcome (serve : request -> exn + response) (c : api_call) (w : world)
  (resp : response) :
  serve (mk_request (urljoin (env_url w) (call_path c)) (call_params c)) = inr resp ->
  (status_code resp <> 200%Z ->
     fst (run_call serve c w)
     = inl (SynologyPhotoError [Lit "Request failed: "; Val (JInt (status_code resp))]))
  /\ (forall data s err code,
        status_code resp = 200%Z -> body resp = Some data ->
        lookup_key data "success" = inr s -> truthy s = false ->
        lookup_key data "error" = inr err -> lookup_key err "code" = inr code ->
        fst (run_call serve c w) = inl (SynologyPhotoError [Lit (call_failure c); Val code]))
  /\ (forall data s,
        status_code resp = 200%Z -> body resp = Some data ->
        lookup_key data "success" = inr s -> truthy s = true ->
        fst (run_call serve c w) = call_payload c data).
Proof.
  intros Hs. destruct (run_call_checked serve c w) as [Hl Hr].
  split; [|split].
  - intros Hc. apply (Hl _ (snd (checked_get serve (call_path c) (call_params c) (call_failure c) w))).
    rewrite <- (checked_get_status serve _ _ (call_failure c) w resp Hs Hc).
    destruct (checked_get _ _ _ _ w); reflexivity.
  - intros data s err code Hc Hb Hk Ht He Hco.
    apply (Hl _ (snd (checked_get serve (call_path c) (call_params c) (call_failure c) w))).
    rewrite <- (checked_get_vendor serve _ _ (call_failure c) w resp data s err code
                  Hs Hc Hb Hk Ht He Hco).
    destruct (checked_get _ _ _ _ w); reflexivity.
  - intros data s Hc Hb Hk Ht. eapply Hr.
    apply (checked_get_success serve _ _ _ w resp data s Hs Hc Hb Hk Ht).
Qed.

Lemma api_call_outcome_witness :
  failing_server (mk_request (urljoin (env_url empty_world) "webapi/entry.cgi")
                   (folders_params (JStr "sid") JNull))
    = inr (mk_response 500 (Some (JObj [("success", JBool false);
                                        ("error", JObj [("code", JInt 119)])])))
  /\ fst (run_call failing_server (CallGetFolders (JStr "sid") JNull) empty_world)
     = inl (SynologyPhotoError [Lit "Request failed: "; Val (JInt 500)]).
Proof.
  split; [reflexivity|].
  apply (api_call_outcome failing_server (CallGetFolders (JStr "sid") JNull) empty_world
           (mk_response 500 (Some (JObj [("success", JBool false);
                                         ("error", JObj [("code", JInt 119)])]))));
    [reflexivity | discriminate].
Defined.

(** C2 counterexample: a 500 response whose body carries vendor code 119;
    the error raised carries 500, not 119. *)
Lemma non_200_error_lacks_vendor_code :
  exists msg,
    fst (get_folders failing_server (JStr "sid") JNull empty_world) = inl (SynologyPhotoError msg)
    /\ ~ In (Val (JInt 119)) msg.
Proof.
  eexists. split; [vm_compute; reflexivity|].
  simpl. intros [H|[H|H]]; [discriminate | discriminate | exact H].
Qed.

(** C3 (amended). When get_all_tags returns a list of tags, each with a
    'name' entry, get_tag returns a tag whose 'name' is [tag_name] when the list
    has one, and raises SynologyPhotoError ("Tag '...' not found.") when
    none has that name. *)
Theorem get_tag_lookup (serve : request -> exn + response) (sid : json) (tag_name : string)
  (w : world) (tags : list json) (w' : world) :
  get_all_tags serve sid w = (inr (JList tags), w') ->
  forallb has_name tags = true ->
  ((exists tag, In tag tags /\ lookup_key tag "name" = inr (JStr tag_name)) ->
     exists tag, fst (get_tag serve sid tag_name w) = inr tag
                 /\ lookup_key tag "name" = inr (JStr tag_name))
  /\ ((forall tag, In tag tags -> lookup_key tag "name" <> inr (JStr tag_name)) ->
     fst (get_tag serve sid tag_name w)
     = inl (SynologyPhotoError [Lit "Tag '"; Val (JStr tag_name); Lit "' not found."])).
Proof.
  intros Hl Hn. rewrite (get_tag_listing serve sid tag_name w tags w' Hl). split.
  - intros Hex. destruct (find_tag_present tag_name tags w' Hn Hex) as [tag Htag].
    exists tag. split; [exact Htag|]. eapply find_tag_found. exact Htag.
  - intros Hnot. apply find_tag_absent; assumption.
Qed.

Lemma get_tag_lookup_witness :
  (get_all_tags (list_serve sample_tags) (JStr "sid") empty_world
     = (inr (JList sample_tags),
        snd (get_all_tags (list_serve sample_tags) (JStr "sid") empty_world))
   /\ forallb has_name sample_tags = true)
  /\ fst (get_tag (list_serve sample_tags) (JStr "sid") "xyz" empty_world)
     = inl (SynologyPhotoError [Lit "Tag '"; Val (JStr "xyz"); Lit "' not found."]).
Proof.
  split; [split; vm_compute; reflexivity|].
  apply (get_tag_lookup (list_serve sample_tags) (JStr "sid") "xyz" empty_world sample_tags
           (snd (get_all_tags (list_serve sample_tags) (JStr "sid") empty_world)));
    [vm_compute; reflexivity | vm_compute; reflexivity |].
  intros tag Hin. simpl in Hin.
  destruct Hin as [<-|[<-|[<-|[]]]]; vm_compute; discriminate.
Defined.

(** C3 counterexample: the listing holds a tag named 'U20F' after a tag
    without a 'name'; get_tag neither returns it nor raises
    SynologyPhotoError, but raises KeyError 'name'. *)
Lemma get_tag_present_after_unnamed :
  fst (get_all_tags (list_serve unnamed_first_tags) (JStr "sid") empty_world)
    = inr (JList unnamed_first_tags)
  /\ In (JObj [("id", JInt 2); ("name", JStr "U20F")]) unnamed_first_tags
  /\ fst (get_tag (list_serve unnamed_first_tags) (JStr "sid") "U20F" empty_world)
     = inl (KeyError (JStr "name")).
Proof.
  split; [vm_compute; reflexivity|]. split; [simpl; right; left; reflexivity|].
  vm_compute. reflexivity.
Qed.

(** C10 (amended). When every tag before the first one of the listing
    whose 'name' equals [tag_name] has a 'name' entry, get_tag returns
    that first matching tag: the earlier names all differ from it (any
    other string, including one differing only in case, is different). *)
Theorem get_tag_first_match (serve : request -> exn + response) (sid : json)
  (tag_name : string) (w : world) (l1 : list json) (tag : json) (l2 : list json) (w' : world) :
  get_all_tags serve sid w = (inr (JList (l1 ++ tag :: l2)), w') ->
  Forall (fun t => exists v, lookup_key t "name" = inr v /\ v <> JStr tag_name) l1 ->
  lookup_key tag "name" = inr (JStr tag_name) ->
  fst (get_tag serve sid tag_name w) = inr tag.
Proof.
  intros Hl H1 Ht. rewrite (get_tag_listing serve sid tag_name w _ w' Hl).
  apply find_tag_first; assumption.
Qed.

Lemma get_tag_first_match_witness :
  fst (get_tag (list_serve sample_tags) (JStr "sid") "ABC" empty_world)
  = inr (JObj [("id", JInt 2); ("name", JStr "ABC")]).
Proof.
  apply (get_tag_first_match (list_serve sample_tags) (JStr "sid") "ABC" empty_world
           [JObj [("id", JInt 1); ("name", JStr "abc")]]
           (JObj [("id", JInt 2); ("name", JStr "ABC")])
           [JObj [("id", JInt 3); ("name", JStr "ABC")]]
           (snd (get_all_tags (list_serve sample_tags) (JStr "sid") empty_world))).
  - vm_compute. reflexivity.
  - constructor; [|constructor]. exists (JStr "abc"). split; [reflexivity | discriminate].
  - reflexivity.
Defined.

(** C10 counterexample: two tags are named 'ABC', after a tag without a
    'name'; get_tag returns neither of them but raises KeyError 'name'. *)
Lemma get_tag_same_name_after_unnamed :
  fst (get_all_tags (list_serve unnamed_then_same_name_tags) (JStr "sid") empty_world)
    = inr (JList unnamed_then_same_name_tags)
  /\ fst (get_tag (list_serve unnamed_then_same_name_tags) (JStr "sid") "ABC" empty_world)
     = inl (KeyError (JStr "name")).
Proof. split; vm_compute; reflexivity. Qed.

(** C4. For a team of the mapping, when processing it ends without error,
    the tagger listed the items of the team's folder recursively, looked
    up the tag whose 'name' is the team name, and sent one add_tag request
    with the 'id' of every listed item, in order, and that tag's id alone. *)
Theorem process_team_applies_tag (serve : request -> exn + response) (budget : nat)
  (sid : json) (team_name : string) (folder_id : Z) (w : world) :
  In (team_name, folder_id) team_folders_id ->
  fst (process_team_body serve budget sid team_name folder_id w) = inr tt ->
  exists items its ids tag tag_id w1 w2,
    get_items serve budget sid (JInt folder_id) true (log_out (processing_message team_name) w)
      = (inr items, w1)
    /\ iter_json items = inr its
    /\ Forall2 (fun item id => lookup_key item "id" = inr id) its ids
    /\ get_tag serve sid team_name w1 = (inr tag, w2)
    /\ lookup_key tag "name" = inr (JStr team_name)
    /\ lookup_key tag "id" = inr tag_id
    /\ requests_log (snd (process_team_body serve budget sid team_name folder_id w))
       = app (requests_log w2)
             [mk_request (urljoin (env_url w2) "webapi/entry.cgi")
               (add_tag_params sid (JList ids) (JList [tag_id]))].
Proof.
  intros _ H. unfold process_team_body in *.
  destruct (bind_inr_inv _ _ _ _ H) as [u [w0 [Hp [H1 S1]]]]. rewrite S1.
  unfold print in Hp. injection Hp as _ <-. cbv beta in H1 |- *.
  destruct (bind_inr_inv _ _ _ _ H1) as [items [w1 [Hi [H2 S2]]]]. rewrite S2.
  cbv beta in H2 |- *.
  destruct (bind_inr_inv _ _ _ _ H2) as [its [w1' [Hit [H3 S3]]]]. rewrite S3.
  apply lift_inr_inv in Hit as [Hit ->]. cbv beta in H3 |- *.
  destruct (bind_inr_inv _ _ _ _ H3) as [ids [w1'' [Hids [H4 S4]]]]. rewrite S4.
  apply map_m_getitem_inv in Hids as [Hids ->]. cbv beta in H4 |- *.
  destruct (bind_inr_inv _ _ _ _ H4) as [tag [w2 [Ht [H5 S5]]]]. rewrite S5.
  cbv beta in H5 |- *.
  destruct (bind_inr_inv _ _ _ _ H5) as [tag_id [w2' [Hid [H6 S6]]]]. rewrite S6.
  apply lift_inr_inv in Hid as [Hid ->]. cbv beta.
  exists items, its, ids, tag, tag_id, w1, w2.
  split; [exact Hi|]. split; [exact Hit|]. split; [exact Hids|]. split; [exact Ht|].
  split; [apply (get_tag_name serve sid team_name w1); rewrite Ht; reflexivity|].
  split; [exact Hid|].
  rewrite add_tag_world. reflexivity.
Qed.

Lemma process_team_applies_tag_witness :
  In ("U20F", 3048%Z) team_folders_id
  /\ exists items its ids tag tag_id w1 w2,
    get_items (photo_serve team_tree team_tags) 3 (JStr "sid") (JInt 3048) true
      (log_out (processing_message "U20F") empty_world) = (inr items, w1)
    /\ iter_json items = inr its
    /\ Forall2 (fun item id => lookup_key item "id" = inr id) its ids
    /\ get_tag (photo_serve team_tree team_tags) (JStr "sid") "U20F" w1 = (inr tag, w2)
    /\ lookup_key tag "name" = inr (JStr "U20F")
    /\ lookup_key tag "id" = inr tag_id
    /\ requests_log (snd (process_team_body (photo_serve team_tree team_tags) 3 (JStr "sid")
                           "U20F" 3048 empty_world))
       = app (requests_log w2)
             [mk_request (urljoin (env_url w2) "webapi/entry.cgi")
               (add_tag_params (JStr "sid") (JList ids) (JList [tag_id]))].
Proof.
  split; [simpl; left; reflexivity|].
  apply (process_team_applies_tag (photo_serve team_tree team_tags) 3 (JStr "sid") "U20F" 3048
           empty_world); [simpl; left; reflexivity | vm_compute; reflexivity].
Defined.

(** C5. When processing a team raises SynologyPhotoError, the error is
    written to stderr and the loop goes on with the remaining teams from
    that point; and once the configuration is complete and authentication
    succeeded, when each team of the run ends normally or with
    SynologyPhotoError (each in the world the previous teams left), the
    exit status is 0. *)
Theorem add_tags_skips_failed_teams (serve : request -> exn + response) (budget : nat) :
  (forall sid team fid rest w m w1,
     process_team_body serve budget sid team fid w = (inl (SynologyPhotoError m), w1) ->
     process_teams serve budget sid ((team, fid) :: rest) w
     = process_teams serve budget sid rest (log_err (team_error_message team m) w1))
  /\ (forall dotenv w sid w2,
     env_complete (snd (load_dotenv dotenv w)) = true ->
     authenticate serve (env_json "SYNOLOGY_PHOTO_USERNAME" (snd (load_dotenv dotenv w)))
       (env_json "SYNOLOGY_PHOTO_PASSWORD" (snd (load_dotenv dotenv w)))
       (snd (load_dotenv dotenv w)) = (inr sid, w2) ->
     teams_fail_only_spe serve budget sid team_folders_id
       (log_out [Lit "Processing "; Val (JInt 15); Lit " teams..."] w2) = true ->
     exit_status (fst (add_tags_main serve budget dotenv w)) = 0%Z).
Proof.
  split.
  - intros sid team fid rest w m w1 H. simpl.
    rewrite (bind_inr _ _ w tt _ (process_team_spe serve budget sid team fid w m w1 H)).
    reflexivity.
  - intros dotenv w sid w2 Hc Ha Hteams.
    rewrite add_tags_main_unfold. cbv zeta. rewrite Hc. unfold try_except.
    erewrite bind_inr by reflexivity. cbv beta.
    erewrite bind_inr by reflexivity. cbv beta.
    erewrite bind_inr by exact Ha. cbv beta.
    erewrite bind_inr by reflexivity. cbv beta.
    set (w3 := log_out _ w2).
    pose proof (process_teams_ok serve budget sid team_folders_id w3 Hteams) as Hp.
    destruct (process_teams serve budget sid team_folders_id w3) as [r w4] eqn:E.
    simpl in Hp. subst r.
    erewrite bind_inr by exact E. reflexivity.
Qed.

Lemma add_tags_skips_failed_teams_witness :
  exit_status (fst (add_tags_main auth_only_serve 3 bot_dotenv empty_world)) = 0%Z.
Proof.
  apply (proj2 (add_tags_skips_failed_teams auth_only_serve 3) bot_dotenv empty_world
           (JStr "s1d")
           (snd (authenticate auth_only_serve (JStr "bot") (JStr "pw")
                   (snd (load_dotenv bot_dotenv empty_world))))).
  - vm_compute. reflexivity.
  - vm_compute. reflexivity.
  - vm_compute. reflexivity.
Defined.

(** C6 (amended). AddTags exits 1 when one of the three variables is unset
    or empty after loading .env, or when authentication raises
    SynologyPhotoError.  The dump scripts check no variable: UpdateApiInfo
    exits 1 when get_api_info raises and 0 when it returns and the file is
    written; UpdateTagsList exits 1 when authenticate or get_all_tags
    raises and 0 when both return and the file is written. *)
Theorem scripts_exit_status (serve : request -> exn + response) (budget : nat)
  (dotenv : list (string * string)) (out : string) (w : world) :
  let w0 := snd (load_dotenv dotenv w) in
  (env_complete w0 = false -> exit_status (fst (add_tags_main serve budget dotenv w)) = 1%Z)
  /\ (forall m w2, env_complete w0 = true ->
        authenticate serve (env_json "SYNOLOGY_PHOTO_USERNAME" w0)
          (env_json "SYNOLOGY_PHOTO_PASSWORD" w0) w0 = (inl (SynologyPhotoError m), w2) ->
        exit_status (fst (add_tags_main serve budget dotenv w)) = 1%Z)
  /\ (forall w1 e w2, makedirs out w0 = (inr tt, w1) ->
        get_api_info serve w1 = (inl e, w2) -> is_Exception e = true ->
        exit_status (fst (update_api_info serve dotenv out w)) = 1%Z)
  /\ (forall w1 data w2, makedirs out w0 = (inr tt, w1) ->
        get_api_info serve w1 = (inr data, w2) ->
        existsb (String.eqb (path_join out "api_info.json")) (dirs w2) = false ->
        exit_status (fst (update_api_info serve dotenv out w)) = 0%Z)
  /\ (forall w1 e w2, makedirs out w0 = (inr tt, w1) ->
        authenticate serve (env_json "SYNOLOGY_PHOTO_USERNAME" w1)
          (env_json "SYNOLOGY_PHOTO_PASSWORD" w1) w1 = (inl e, w2) ->
        is_Exception e = true ->
        exit_status (fst (update_tags_list serve dotenv out w)) = 1%Z)
  /\ (forall w1 sid w2 e w3, makedirs out w0 = (inr tt, w1) ->
        authenticate serve (env_json "SYNOLOGY_PHOTO_USERNAME" w1)
          (env_json "SYNOLOGY_PHOTO_PASSWORD" w1) w1 = (inr sid, w2) ->
        get_all_tags serve sid w2 = (inl e, w3) -> is_Exception e = true ->
        exit_status (fst (update_tags_list serve dotenv out w)) = 1%Z)
  /\ (forall w1 sid w2 tags w3, makedirs out w0 = (inr tt, w1) ->
        authenticate serve (env_json "SYNOLOGY_PHOTO_USERNAME" w1)
          (env_json "SYNOLOGY_PHOTO_PASSWORD" w1) w1 = (inr sid, w2) ->
        get_all_tags serve sid w2 = (inr tags, w3) ->
        existsb (String.eqb (path_join out "tags_info.json")) (dirs w3) = false ->
        exit_status (fst (update_tags_list serve dotenv out w)) = 0%Z).
Proof.
  intros w0. split; [|split; [|split; [|split; [|split; [|split]]]]].
  - intros Hc. rewrite add_tags_main_unfold. cbv zeta. fold w0. rewrite Hc. reflexivity.
  - intros m w2 Hc Ha. rewrite add_tags_main_unfold. cbv zeta. fold w0. rewrite Hc.
    unfold try_except.
    erewrite bind_inr by reflexivity. cbv beta.
    erewrite bind_inr by reflexivity. cbv beta.
    erewrite bind_inl by exact Ha. reflexivity.
  - intros w1 e w2 Hm Hg He. unfold update_api_info.
    erewrite bind_inr by reflexivity. erewrite bind_inr by exact Hm.
    unfold try_except. erewrite bind_inl by exact Hg.
    apply report_and_exit_status. exact He.
  - intros w1 data w2 Hm Hg Hd. unfold update_api_info.
    erewrite bind_inr by reflexivity. erewrite bind_inr by exact Hm.
    unfold try_except. erewrite bind_inr by exact Hg. cbv beta zeta.
    unfold bind at 1, open_w. rewrite Hd. reflexivity.
  - intros w1 e w2 Hm Ha He. unfold update_tags_list.
    erewrite bind_inr by reflexivity. erewrite bind_inr by exact Hm.
    unfold try_except.
    erewrite bind_inr by reflexivity. cbv beta.
    erewrite bind_inr by reflexivity. cbv beta.
    erewrite bind_inl by exact Ha.
    apply report_and_exit_status. exact He.
  - intros w1 sid w2 e w3 Hm Ha Hg He. unfold update_tags_list.
    erewrite bind_inr by reflexivity. erewrite bind_inr by exact Hm.
    unfold try_except.
    erewrite bind_inr by reflexivity. cbv beta.
    erewrite bind_inr by reflexivity. cbv beta.
    erewrite bind_inr by exact Ha. cbv beta.
    erewrite bind_inl by exact Hg.
    apply report_and_exit_status. exact He.
  - intros w1 sid w2 tags w3 Hm Ha Hg Hd. unfold update_tags_list.
    erewrite bind_inr by reflexivity. erewrite bind_inr by exact Hm.
    unfold try_except.
    erewrite bind_inr by reflexivity. cbv beta.
    erewrite bind_inr by reflexivity. cbv beta.
    erewrite bind_inr by exact Ha. cbv beta.
    erewrite bind_inr by exact Hg. cbv beta zeta.
    unfold bind at 1, open_w. rewrite Hd. reflexivity.
Qed.

Lemma scripts_exit_status_witness :
  exit_status (fst (update_api_info ok_serve [] "/app/output" empty_world)) = 0%Z.
Proof.
  apply (proj1 (proj2 (proj2 (proj2 (scripts_exit_status ok_serve 0 [] "/app/output"
                                        empty_world))))
           (add_dir "/app/output" empty_world) (JObj [])
           (snd (get_api_info ok_serve (add_dir "/app/output" empty_world))));
    vm_compute; reflexivity.
Defined.

(** C6 counterexample: UpdateApiInfo run without username and password
    exits 0. *)
Lemma update_api_info_without_credentials :
  env_lookup "SYNOLOGY_PHOTO_USERNAME" (environ (snd (load_dotenv [] empty_world))) = None
  /\ env_lookup "SYNOLOGY_PHOTO_PASSWORD" (environ (snd (load_dotenv [] empty_world))) = None
  /\ exit_status (fst (update_api_info ok_serve [] "/app/output" empty_world)) = 0%Z.
Proof. vm_compute. split; [reflexivity | split; reflexivity]. Qed.

(** C7 (amended). Every request sent by get_folders, get_items (recursive
    or not), get_all_tags, get_tag and add_tag carries the session id
    [sid] they are given as its '_sid' parameter. *)
Theorem requests_carry_sid (serve : request -> exn + response) (sid : json) :
  (forall fid, issues (has_sid sid) (get_folders serve sid fid))
  /\ (forall fuel fid recursive, issues (has_sid sid) (get_items serve fuel sid fid recursive))
  /\ issues (has_sid sid) (get_all_tags serve sid)
  /\ (forall tag_name, issues (has_sid sid) (get_tag serve sid tag_name))
  /\ (forall item_ids tag_ids, issues (has_sid sid) (add_tag serve sid item_ids tag_ids)).
Proof.
  unfold has_sid. split; [|split; [|split; [|split]]].
  - intros fid. apply issues_get_folders. intros u. simpl. tauto.
  - apply issues_get_items. intros u fid. simpl. tauto.
  - apply issues_get_all_tags. intros u. simpl. tauto.
  - intros tag_name. apply issues_get_tag. intros u. simpl. tauto.
  - intros item_ids tag_ids. apply issues_add_tag. intros u. simpl. tauto.
Qed.

(** C7 counterexample: get_api_info, called by UpdateApiInfo without any
    login, sends a request with no '_sid' parameter. *)
Lemma get_api_info_request_without_sid :
  exists r, requests_log (snd (get_api_info ok_serve empty_world)) = [r]
            /\ param "_sid" r = None.
Proof. eexists. split; [vm_compute; reflexivity | reflexivity]. Qed.

(** C8. get_folders, get_all_tags and a non-recursive get_items each send
    exactly one request, whose parameters are offset=0 and limit=100; every
    request of a recursive get_items, and of get_tag, also asks for
    offset=0 and limit=100: no later page is ever requested. *)
Theorem listings_single_page (serve : request -> exn + response) (sid : json) :
  (forall fid w, requests_log (snd (get_folders serve sid fid w))
     = app (requests_log w)
         [mk_request (urljoin (env_url w) "webapi/entry.cgi") (folders_params sid fid)])
  /\ (forall w, requests_log (snd (get_all_tags serve sid w))
     = app (requests_log w)
         [mk_request (urljoin (env_url w) "webapi/entry.cgi") (tags_params sid)])
  /\ (forall fuel fid w, requests_log (snd (get_items serve fuel sid fid false w))
     = app (requests_log w)
         [mk_request (urljoin (env_url w) "webapi/entry.cgi") (items_params sid fid)])
  /\ (forall fid, issues first_page_request (get_folders serve sid fid))
  /\ issues first_page_request (get_all_tags serve sid)
  /\ (forall fuel fid recursive,
        issues first_page_request (get_items serve fuel sid fid recursive))
  /\ (forall tag_name, issues first_page_request (get_tag serve sid tag_name)).
Proof.
  unfold first_page_request. split; [|split; [|split; [|split; [|split; [|split]]]]].
  - intros fid w. rewrite get_folders_world. reflexivity.
  - intros w. rewrite get_all_tags_world. reflexivity.
  - intros fuel fid w. rewrite get_items_flat_world. reflexivity.
  - intros fid. apply issues_get_folders. intros u. simpl. tauto.
  - apply issues_get_all_tags. intros u. simpl. tauto.
  - apply issues_get_items. intros u fid. simpl. tauto.
  - intros tag_name. apply issues_get_tag. intros u. simpl. tauto.
Qed.

(** C9. A dump script changes its output file only when its API calls
    returned: if output/api_info.json (output/tags_info.json) differs after
    the run, makedirs succeeded and get_api_info (authenticate and then
    get_all_tags) returned without raising. *)
Theorem dump_scripts_write_after_success (serve : request -> exn + response)
  (dotenv : list (string * string)) (out : string) (w : world) :
  let w0 := snd (load_dotenv dotenv w) in
  (file_contents (path_join out "api_info.json") (snd (update_api_info serve dotenv out w))
     <> file_contents (path_join out "api_info.json") w ->
   exists w1 data w2, makedirs out w0 = (inr tt, w1) /\ get_api_info serve w1 = (inr data, w2))
  /\ (file_contents (path_join out "tags_info.json") (snd (update_tags_list serve dotenv out w))
     <> file_contents (path_join out "tags_info.json") w ->
   exists w1 sid w2 tags w3, makedirs out w0 = (inr tt, w1)
     /\ authenticate serve (env_json "SYNOLOGY_PHOTO_USERNAME" w1)
          (env_json "SYNOLOGY_PHOTO_PASSWORD" w1) w1 = (inr sid, w2)
     /\ get_all_tags serve sid w2 = (inr tags, w3)).
Proof.
  intros w0. split; intros Hch.
  - destruct (makedirs out w0) as [[e|[]] w1] eqn:Em.
    + exfalso. apply Hch. apply files_contents. unfold update_api_info.
      erewrite bind_inr by reflexivity. erewrite bind_inl by exact Em.
      apply makedirs_inl in Em. subst w1. reflexivity.
    + destruct (get_api_info serve w1) as [[e|data] w2] eqn:Eg.
      * exfalso. apply Hch. apply files_contents. unfold update_api_info.
        erewrite bind_inr by reflexivity. erewrite bind_inr by exact Em.
        unfold try_except. erewrite bind_inl by exact Eg.
        rewrite report_and_exit_files.
        replace w2 with (snd (get_api_info serve w1)) by (rewrite Eg; reflexivity).
        rewrite get_api_info_world. simpl. apply (makedirs_inr_files _ _ _ Em).
      * exists w1, data, w2. split; [reflexivity | exact Eg].
  - destruct (makedirs out w0) as [[e|[]] w1] eqn:Em.
    + exfalso. apply Hch. apply files_contents. unfold update_tags_list.
      erewrite bind_inr by reflexivity. erewrite bind_inl by exact Em.
      apply makedirs_inl in Em. subst w1. reflexivity.
    + destruct (authenticate serve (env_json "SYNOLOGY_PHOTO_USERNAME" w1)
                  (env_json "SYNOLOGY_PHOTO_PASSWORD" w1) w1) as [[e|sid] w2] eqn:Ea.
      * exfalso. apply Hch. apply files_contents. unfold update_tags_list.
        erewrite bind_inr by reflexivity. erewrite bind_inr by exact Em.
        unfold try_except.
        erewrite bind_inr by reflexivity. cbv beta.
        erewrite bind_inr by reflexivity. cbv beta.
        erewrite bind_inl by exact Ea.
        rewrite report_and_exit_files.
        replace w2 with (snd (authenticate serve (env_json "SYNOLOGY_PHOTO_USERNAME" w1)
                                (env_json "SYNOLOGY_PHOTO_PASSWORD" w1) w1))
          by (rewrite Ea; reflexivity).
        rewrite authenticate_world. simpl. apply (makedirs_inr_files _ _ _ Em).
      * destruct (get_all_tags serve sid w2) as [[e|tags] w3] eqn:Eg.
        -- exfalso. apply Hch. apply files_contents. unfold update_tags_list.
           erewrite bind_inr by reflexivity. erewrite bind_inr by exact Em.
           unfold try_except.
           erewrite bind_inr by reflexivity. cbv beta.
           erewrite bind_inr by reflexivity. cbv beta.
           erewrite bind_inr by exact Ea. cbv beta.
           erewrite bind_inl by exact Eg.
           rewrite report_and_exit_files.
           replace w3 with (snd (get_all_tags serve sid w2)) by (rewrite Eg; reflexivity).
           rewrite get_all_tags_world. simpl.
           replace w2 with (snd (authenticate serve (env_json "SYNOLOGY_PHOTO_USERNAME" w1)
                                   (env_json "SYNOLOGY_PHOTO_PASSWORD" w1) w1))
             by (rewrite Ea; reflexivity).
           rewrite authenticate_world. simpl. apply (makedirs_inr_files _ _ _ Em).
        -- exists w1, sid, w2, tags, w3. split; [reflexivity | split; [exact Ea | exact Eg]].
Qed.

Lemma dump_scripts_write_after_success_witness :
  exists w1 data w2,
    makedirs "/app/output" (snd (load_dotenv [] empty_world)) = (inr tt, w1)
    /\ get_api_info ok_serve w1 = (inr data, w2).
Proof.
  apply (proj1 (dump_scripts_write_after_success ok_serve [] "/app/output" empty_world)).
  vm_compute. discriminate.
Defined.

(** * Further properties of the library and the scripts *)

(** X1. Only a well-formed answer turns into SynologyPhotoError: for each
    single-request library call, an exception of the transport propagates
    unchanged, a 200 answer whose body is not JSON raises JSONDecodeError,
    a decoded body without 'success' raises the KeyError of that lookup,
    and a false success flag without an 'error' entry raises the KeyError
    of that lookup. *)
Theorem api_call_malformed_response (serve : request -> exn + response) (c : api_call)
  (w : world) :
  let r := mk_request (urljoin (env_url w) (call_path c)) (call_params c) in
  (forall e, serve r = inl e -> fst (run_call serve c w) = inl e)
  /\ (forall resp, serve r = inr resp -> status_code resp = 200%Z -> body resp = None ->
        fst (run_call serve c w) = inl JSONDecodeError)
  /\ (forall resp data e, serve r = inr resp -> status_code resp = 200%Z ->
        body resp = Some data -> lookup_key data "success" = inl e ->
        fst (run_call serve c w) = inl e)
  /\ (forall resp data s e, serve r = inr resp -> status_code resp = 200%Z ->
        body resp = Some data -> lookup_key data "success" = inr s -> truthy s = false ->
        lookup_key data "error" = inl e ->
        fst (run_call serve c w) = inl e).
Proof.
  intros r. split; [|split; [|split]].
  - intros e H. apply run_call_checked_inl. apply checked_get_transport. exact H.
  - intros resp Hs Hc Hb. apply run_call_checked_inl.
    eapply checked_get_not_json; eassumption.
  - intros resp data e Hs Hc Hb Hk. apply run_call_checked_inl.
    eapply checked_get_no_success; eassumption.
  - intros resp data s e Hs Hc Hb Hk Ht He. apply run_call_checked_inl.
    eapply checked_get_no_error; eassumption.
Qed.

Lemma api_call_malformed_response_witness :
  fst (run_call html_serve (CallAuthenticate (JStr "bot") (JStr "pw")) empty_world)
  = inl JSONDecodeError.
Proof.
  apply (proj1 (proj2 (api_call_malformed_response html_serve
                         (CallAuthenticate (JStr "bot") (JStr "pw")) empty_world))
           (mk_response 200 None)); reflexivity.
Defined.

(** X2. The library functions only send requests: authenticate,
    get_api_info, get_folders, get_items, get_all_tags, get_tag and add_tag
    leave the environment, stdout, stderr, the directories and the files as
    they are, whether they return or raise. *)
Theorem library_changes_only_requests (serve : request -> exn + response) (w : world) :
  (forall u p, same_but_requests w (snd (authenticate serve u p w)))
  /\ same_but_requests w (snd (get_api_info serve w))
  /\ (forall sid fid, same_but_requests w (snd (get_folders serve sid fid w)))
  /\ (forall fuel sid fid recursive,
        same_but_requests w (snd (get_items serve fuel sid fid recursive w)))
  /\ (forall sid, same_but_requests w (snd (get_all_tags serve sid w)))
  /\ (forall sid name, same_but_requests w (snd (get_tag serve sid name w)))
  /\ (forall sid ids tags, same_but_requests w (snd (add_tag serve sid ids tags w))).
Proof.
  split; [|split; [|split; [|split; [|split; [|split]]]]]; intros;
    [ apply quiet_authenticate | apply quiet_get_api_info | apply quiet_get_folders
    | apply quiet_get_items | apply quiet_get_all_tags | apply quiet_get_tag
    | apply quiet_add_tag ].
Qed.

(** X3. Against a server holding a folder tree with distinct folder ids,
    a recursive get_items on the root within the recursion limit sends,
    for each folder it reaches in preorder, the item listing request of
    that folder followed by its subfolder listing request, and nothing
    else; when no folder has more than 100 subfolders, the folders reached
    are all the folders of the tree. *)
Theorem get_items_recursive_requests (t : ftree) (sid : json) (fuel : nat) (w : world) :
  distinct_ids (map node_id (subtrees t)) = true -> depth t <= fuel ->
  requests_log (snd (get_items (tree_serve t) fuel sid (JInt (node_id t)) true w))
  = app (requests_log w)
        (flat_map (listing_requests (urljoin (env_url w) "webapi/entry.cgi") sid)
                  (visited_folders t))
  /\ (subfolders_bounded t = true -> visited_folders t = subtrees t).
Proof.
  intros Hd Hf. split.
  - apply get_items_tree_log; [apply distinct_ids_NoDup; exact Hd | apply incl_refl | exact Hf].
  - apply visited_folders_bounded.
Qed.

Lemma get_items_recursive_requests_witness :
  length (requests_log (snd (get_items (tree_serve sample_tree) 2 (JStr "sid") (JInt 1) true
                               empty_world)))
  = 2 * length (subtrees sample_tree).
Proof.
  destruct (get_items_recursive_requests sample_tree (JStr "sid") 2 empty_world)
    as [Hl Hv]; [reflexivity | simpl; lia |].
  change (JInt 1) with (JInt (node_id sample_tree)). rewrite Hl, (Hv eq_refl). reflexivity.
Defined.

(** X4. add_tag sends the item ids and the tag ids as the JSON text of the
    lists: for a list of integers, '[' then the decimal numbers separated
    by ', ' then ']', and '[]' for the empty list. *)
Theorem add_tag_ids_text (sid : json) (item_ids tag_ids : list Z) :
  let text l := match l with
                | [] => "[]"
                | _ => "[" ++ String.concat ", " (map string_of_Z l) ++ "]"
                end in
  add_tag_params sid (JList (map JInt item_ids)) (JList (map JInt tag_ids))
  = [("api", JStr "SYNO.Foto.Browse.Item"); ("version", JInt 1); ("method", JStr "add_tag");
     ("_sid", sid); ("id", JStr (text item_ids)); ("tag", JStr (text tag_ids))].
Proof.
  intros text. unfold add_tag_params, dumps, text.
  destruct item_ids as [|i is], tag_ids as [|j js]; cbn [map dumps_at];
    try rewrite !dumps_items_ints; reflexivity.
Qed.

(** X5. A team whose folder lists no item is still tagged: process_team
    sends an add_tag request whose 'id' is the empty JSON list '[]' and
    whose 'tag' is the JSON text of the one-element list of the tag id. *)
Theorem process_team_empty_folder (serve : request -> exn + response) (budget : nat)
  (sid : json) (team_name : string) (folder_id : Z) (w w1 w2 : world) (tag tag_id : json) :
  get_items serve budget sid (JInt folder_id) true (log_out (processing_message team_name) w)
    = (inr (JList []), w1) ->
  get_tag serve sid team_name w1 = (inr tag, w2) ->
  lookup_key tag "id" = inr tag_id ->
  exists r,
    requests_log (snd (process_team_body serve budget sid team_name folder_id w))
    = app (requests_log w2) [r]
    /\ param "method" r = Some (JStr "add_tag")
    /\ param "id" r = Some (JStr "[]")
    /\ param "tag" r = Some (JStr (dumps (JList [tag_id]))).
Proof.
  intros Hi Ht Hid. unfold process_team_body.
  rewrite (bind_inr (print _) _ w tt (log_out (processing_message team_name) w)) by reflexivity.
  erewrite bind_inr by exact Hi. cbv beta.
  erewrite bind_inr by reflexivity. cbv beta.
  erewrite bind_inr by reflexivity. cbv beta.
  erewrite bind_inr by exact Ht. cbv beta.
  erewrite bind_inr by (unfold getitem, lift; rewrite Hid; reflexivity).
  rewrite add_tag_world. eexists. split; [reflexivity|].
  split; [reflexivity|]. split; [reflexivity|].
  unfold param. simpl. reflexivity.
Qed.

Lemma process_team_empty_folder_witness :
  exists r,
    requests_log (snd (process_team_body (photo_serve empty_team_tree team_tags) 3 (JStr "sid")
                         "U20F" 3048 empty_world))
    = app (requests_log (snd (get_tag (photo_serve empty_team_tree team_tags) (JStr "sid") "U20F"
             (snd (get_items (photo_serve empty_team_tree team_tags) 3 (JStr "sid") (JInt 3048)
                     true (log_out (processing_message "U20F") empty_world)))))) [r]
    /\ param "method" r = Some (JStr "add_tag")
    /\ param "id" r = Some (JStr "[]")
    /\ param "tag" r = Some (JStr (dumps (JList [JInt 55]))).
Proof.
  apply (process_team_empty_folder (photo_serve empty_team_tree team_tags) 3 (JStr "sid")
           "U20F" 3048 empty_world
           (snd (get_items (photo_serve empty_team_tree team_tags) 3 (JStr "sid") (JInt 3048)
                   true (log_out (processing_message "U20F") empty_world)))
           (snd (get_tag (photo_serve empty_team_tree team_tags) (JStr "sid") "U20F"
             (snd (get_items (photo_serve empty_team_tree team_tags) 3 (JStr "sid") (JInt 3048)
                     true (log_out (processing_message "U20F") empty_world)))))
           (JObj [("id", JInt 55); ("name", JStr "U20F")]) (JInt 55));
    vm_compute; reflexivity.
Defined.

(** X6. get_tag does not skip a tag without a 'name': when it reaches one
    before any match, it raises the error of that lookup (KeyError 'name'
    for a dict without it) instead of looking further. *)
Theorem get_tag_unnamed_tag (serve : request -> exn + response) (sid : json)
  (tag_name : string) (w : world) (l1 : list json) (tag : json) (l2 : list json)
  (w' : world) (e : exn) :
  get_all_tags serve sid w = (inr (JList (app l1 (tag :: l2))), w') ->
  Forall (fun t => exists v, lookup_key t "name" = inr v /\ v <> JStr tag_name) l1 ->
  lookup_key tag "name" = inl e ->
  fst (get_tag serve sid tag_name w) = inl e.
Proof.
  intros Hl H1 Ht. rewrite (get_tag_listing serve sid tag_name w _ w' Hl).
  apply find_tag_unnamed; assumption.
Qed.

Lemma get_tag_unnamed_tag_witness :
  fst (get_tag (list_serve [JObj [("id", JInt 1)]; JObj [("id", JInt 2); ("name", JStr "U20F")]])
         (JStr "sid") "U20F" empty_world)
  = inl (KeyError (JStr "name")).
Proof.
  apply (get_tag_unnamed_tag
           (list_serve [JObj [("id", JInt 1)]; JObj [("id", JInt 2); ("name", JStr "U20F")]])
           (JStr "sid") "U20F" empty_world [] (JObj [("id", JInt 1)])
           [JObj [("id", JInt 2); ("name", JStr "U20F")]]
           (snd (get_all_tags
                   (list_serve [JObj [("id", JInt 1)]; JObj [("id", JInt 2); ("name", JStr "U20F")]])
                   (JStr "sid") empty_world))).
  - vm_compute. reflexivity.
  - constructor.
  - reflexivity.
Defined.

(** X7. AddTags announces every team on stdout, once and in the order of
    the mapping, whatever the outcome of the team: processing a list of
    teams in which each team ends normally or with SynologyPhotoError
    (each in the world the previous teams left) adds
    exactly the lines "Processing team <name>..." to stdout, in order. *)
Theorem process_teams_announces (serve : request -> exn + response) (budget : nat)
  (sid : json) (teams : list (string * Z)) (w : world) :
  teams_fail_only_spe serve budget sid teams w = true ->
  stdout (snd (process_teams serve budget sid teams w))
  = app (stdout w) (map (fun tf => processing_message (fst tf)) teams).
Proof.
  revert w. induction teams as [|[team fid] r IH]; intros w H.
  - simpl. rewrite app_nil_r. reflexivity.
  - cbn [process_teams map fst].
    simpl in H. apply andb_true_iff in H as [H1 H2].
    pose proof (process_team_ok serve budget sid team fid w H1) as Hp.
    pose proof (process_team_stdout serve budget sid team fid w) as Ho.
    destruct (process_team serve budget sid team fid w) as [[e|[]] w1] eqn:E;
      simpl in Hp, H2; [discriminate|].
    erewrite bind_inr by exact E. rewrite IH by exact H2.
    simpl in Ho. rewrite Ho, <- app_assoc. reflexivity.
Qed.

Lemma process_teams_announces_witness :
  stdout (snd (process_teams auth_only_serve 3 (JStr "s1d") team_folders_id empty_world))
  = map (fun tf => processing_message (fst tf)) team_folders_id.
Proof.
  apply (process_teams_announces auth_only_serve 3 (JStr "s1d") team_folders_id empty_world).
  vm_compute. reflexivity.
Defined.

(** X8. process_team catches only SynologyPhotoError: when processing a
    team raises any other exception (a KeyError for an item without 'id',
    a JSONDecodeError, a transport error), the loop stops at that team,
    and AddTags ends with that exception uncaught (exit status 1) without
    printing "All teams processed successfully". *)
Theorem add_tags_uncaught_error (serve : request -> exn + response) (budget : nat) :
  (forall sid team fid rest w e w1,
     process_team_body serve budget sid team fid w = (inl e, w1) ->
     (forall m, e <> SynologyPhotoError m) ->
     process_teams serve budget sid ((team, fid) :: rest) w = (inl e, w1))
  /\ (forall dotenv w sid w2 e w3,
     env_complete (snd (load_dotenv dotenv w)) = true ->
     authenticate serve (env_json "SYNOLOGY_PHOTO_USERNAME" (snd (load_dotenv dotenv w)))
       (env_json "SYNOLOGY_PHOTO_PASSWORD" (snd (load_dotenv dotenv w)))
       (snd (load_dotenv dotenv w)) = (inr sid, w2) ->
     process_teams serve budget sid team_folders_id
       (log_out [Lit "Processing "; Val (JInt 15); Lit " teams..."] w2) = (inl e, w3) ->
     (forall m, e <> SynologyPhotoError m) -> is_Exception e = true ->
     add_tags_main serve budget dotenv w = (inl e, w3)
     /\ exit_status (inl e) = 1%Z).
Proof.
  split.
  - intros sid team fid rest w e w1 H Hne. cbn [process_teams].
    assert (Hp : process_team serve budget sid team fid w = (inl e, w1)).
    { unfold process_team, try_except. rewrite H.
      destruct e; try reflexivity. exfalso. eapply Hne. reflexivity. }
    erewrite bind_inl by exact Hp. reflexivity.
  - intros dotenv w sid w2 e w3 Hc Ha Hp Hne He.
    rewrite add_tags_main_unfold. cbv zeta. rewrite Hc. unfold try_except.
    erewrite bind_inr by reflexivity. cbv beta.
    erewrite bind_inr by reflexivity. cbv beta.
    erewrite bind_inr by exact Ha. cbv beta.
    erewrite bind_inr by reflexivity.
    erewrite bind_inl by exact Hp.
    destruct e; try (split; reflexivity); [exfalso; eapply Hne; reflexivity | discriminate].
Qed.

Lemma add_tags_uncaught_error_witness :
  fst (add_tags_main (with_login (photo_serve unnamed_item_tree team_tags)) 3 bot_dotenv
         empty_world)
  = inl (KeyError (JStr "id")).
Proof.
  pose proof (proj2 (add_tags_uncaught_error
             (with_login (photo_serve unnamed_item_tree team_tags)) 3)
             bot_dotenv empty_world (JStr "s1d")
             (snd (authenticate (with_login (photo_serve unnamed_item_tree team_tags))
                     (JStr "bot") (JStr "pw") (snd (load_dotenv bot_dotenv empty_world))))
             (KeyError (JStr "id"))
             (snd (process_teams (with_login (photo_serve unnamed_item_tree team_tags)) 3
                     (JStr "s1d") team_folders_id
                     (log_out [Lit "Processing "; Val (JInt 15); Lit " teams..."]
                        (snd (authenticate (with_login (photo_serve unnamed_item_tree team_tags))
                                (JStr "bot") (JStr "pw")
                                (snd (load_dotenv bot_dotenv empty_world)))))))) as H.
  rewrite (proj1 (H ltac:(reflexivity) ltac:(vm_compute; reflexivity)
                    ltac:(vm_compute; reflexivity) ltac:(intros m; discriminate) eq_refl)).
  reflexivity.
Defined.

(** X9. When a required variable is unset or empty after loading .env,
    AddTags sends no request and prints nothing on stdout; it writes one
    line to stderr naming exactly the missing variables, in the order
    SYNOLOGY_PHOTO_USERNAME, SYNOLOGY_PHOTO_PASSWORD, SYNOLOGY_PHOTO_URL,
    separated by ', ', and exits 1. *)
Theorem add_tags_missing_env (serve : request -> exn + response) (budget : nat)
  (dotenv : list (string * string)) (w : world) :
  let w0 := snd (load_dotenv dotenv w) in
  env_complete w0 = false ->
  fst (add_tags_main serve budget dotenv w) = inl (SystemExit 1)
  /\ requests_log (snd (add_tags_main serve budget dotenv w)) = requests_log w
  /\ stdout (snd (add_tags_main serve budget dotenv w)) = stdout w
  /\ stderr (snd (add_tags_main serve budget dotenv w))
     = app (stderr w)
         [[Lit "Missing required environment variables: ";
           Lit (String.concat ", "
                  (filter (fun var => negb (truthy (env_json var w0))) required_env))]].
Proof.
  intros w0 Hc. rewrite add_tags_main_unfold. cbv zeta. fold w0. rewrite Hc.
  split; [reflexivity | split; [reflexivity | split; reflexivity]].
Qed.

Lemma add_tags_missing_env_witness :
  stderr (snd (add_tags_main ok_serve 3 [] empty_world))
  = [[Lit "Missing required environment variables: ";
      Lit "SYNOLOGY_PHOTO_USERNAME, SYNOLOGY_PHOTO_PASSWORD"]].
Proof.
  rewrite (proj2 (proj2 (proj2 (add_tags_missing_env ok_serve 3 [] empty_world
                                  eq_refl)))).
  reflexivity.
Defined.

(** X10. When the login of AddTags raises SynologyPhotoError, the login
    request is the only request sent: no team is processed; stderr gets
    "Fatal error: " followed by the error, and the exit status is 1. *)
Theorem add_tags_login_failure (serve : request -> exn + response) (budget : nat)
  (dotenv : list (string * string)) (w : world) (m : message) (w2 : world) :
  let w0 := snd (load_dotenv dotenv w) in
  env_complete w0 = true ->
  authenticate serve (env_json "SYNOLOGY_PHOTO_USERNAME" w0)
    (env_json "SYNOLOGY_PHOTO_PASSWORD" w0) w0 = (inl (SynologyPhotoError m), w2) ->
  add_tags_main serve budget dotenv w
    = (inl (SystemExit 1), log_err (Lit "Fatal error: " :: m) w2)
  /\ requests_log w2
     = app (requests_log w)
         [mk_request (urljoin (env_url w0) "webapi/auth.cgi")
            (auth_params (env_json "SYNOLOGY_PHOTO_USERNAME" w0)
                         (env_json "SYNOLOGY_PHOTO_PASSWORD" w0))].
Proof.
  intros w0 Hc Ha. split.
  - rewrite add_tags_main_unfold. cbv zeta. fold w0. rewrite Hc. unfold try_except.
    erewrite bind_inr by reflexivity. cbv beta.
    erewrite bind_inr by reflexivity. cbv beta.
    erewrite bind_inl by exact Ha. reflexivity.
  - pose proof (authenticate_world serve (env_json "SYNOLOGY_PHOTO_USERNAME" w0)
                  (env_json "SYNOLOGY_PHOTO_PASSWORD" w0) w0) as Hw.
    rewrite Ha in Hw. simpl in Hw. rewrite Hw. reflexivity.
Qed.

Lemma add_tags_login_failure_witness :
  add_tags_main failing_server 3 bot_dotenv empty_world
  = (inl (SystemExit 1),
     log_err [Lit "Fatal error: "; Lit "Request failed: "; Val (JInt 500)]
       (snd (authenticate failing_server (JStr "bot") (JStr "pw")
               (snd (load_dotenv bot_dotenv empty_world))))).
Proof.
  apply (add_tags_login_failure failing_server 3 bot_dotenv empty_world
           [Lit "Request failed: "; Val (JInt 500)]
           (snd (authenticate failing_server (JStr "bot") (JStr "pw")
                   (snd (load_dotenv bot_dotenv empty_world)))));
    vm_compute; reflexivity.
Defined.

(** X11. The dump scripts call os.makedirs outside their try block: when
    a file already has the path of the output directory, UpdateApiInfo and
    UpdateTagsList stop with the uncaught OSError (exit status 1) before
    sending any request and without writing to stdout or stderr. *)
Theorem dump_scripts_output_dir_blocked (serve : request -> exn + response)
  (dotenv : list (string * string)) (out : string) (w : world) :
  let w0 := snd (load_dotenv dotenv w) in
  existsb (fun pc => String.eqb (fst pc) out) (files w0) = true ->
  update_api_info serve dotenv out w = (inl (OSError out), w0)
  /\ update_tags_list serve dotenv out w = (inl (OSError out), w0)
  /\ requests_log w0 = requests_log w /\ stdout w0 = stdout w /\ stderr w0 = stderr w
  /\ exit_status (inl (OSError out)) = 1%Z.
Proof.
  intros w0 H. split; [|split].
  - unfold update_api_info. apply load_makedirs_fail. exact H.
  - unfold update_tags_list. apply load_makedirs_fail. exact H.
  - repeat split.
Qed.

Lemma dump_scripts_output_dir_blocked_witness :
  update_api_info ok_serve [] "/app/output" output_blocked_world
  = (inl (OSError "/app/output"), snd (load_dotenv [] output_blocked_world)).
Proof.
  apply (dump_scripts_output_dir_blocked ok_serve [] "/app/output" output_blocked_world).
  reflexivity.
Defined.

(** X12. The dump scripts create the output directory before calling the
    API: when no file has its path, the directory exists at the end of
    the run whether the API calls succeed or fail, and no other directory
    is created. *)
Theorem dump_scripts_create_output_dir (serve : request -> exn + response)
  (dotenv : list (string * string)) (out : string) (w : world) :
  let w0 := snd (load_dotenv dotenv w) in
  existsb (fun pc => String.eqb (fst pc) out) (files w0) = false ->
  dirs (snd (update_api_info serve dotenv out w)) = out :: dirs w0
  /\ dirs (snd (update_tags_list serve dotenv out w)) = out :: dirs w0.
Proof.
  intros w0 H. split;
    [unfold update_api_info | unfold update_tags_list];
    rewrite load_makedirs_ok by exact H; fold w0;
    (match goal with
     | |- dirs (snd (?m ?w')) = _ => assert (K : keeps_dirs m) by (repeat dirs_step); rewrite K
     end); reflexivity.
Qed.

Lemma dump_scripts_create_output_dir_witness :
  fst (update_tags_list failing_server [] "/app/output" empty_world)
    = inl (SystemExit 1)
  /\ dirs (snd (update_tags_list failing_server [] "/app/output" empty_world))
     = ["/app/output"].
Proof.
  split; [vm_compute; reflexivity|].
  apply (dump_scripts_create_output_dir failing_server [] "/app/output" empty_world).
  reflexivity.
Defined.

(** X13. When UpdateApiInfo's get_api_info returns [data] and the output
    path is not a directory, the run ends normally, output/api_info.json
    holds json.dump(data, indent=4), and stdout gets
    "API info saved to <path>". *)
Theorem update_api_info_writes_payload (serve : request -> exn + response)
  (dotenv : list (string * string)) (out : string) (w w1 w2 : world) (data : json) :
  let w0 := snd (load_dotenv dotenv w) in
  let p := path_join out "api_info.json" in
  makedirs out w0 = (inr tt, w1) ->
  get_api_info serve w1 = (inr data, w2) ->
  existsb (String.eqb p) (dirs w2) = false ->
  fst (update_api_info serve dotenv out w) = inr tt
  /\ file_contents p (snd (update_api_info serve dotenv out w))
     = Some (dumps_at (Some 4) 0 data)
  /\ stdout (snd (update_api_info serve dotenv out w))
     = app (stdout w2) [[Lit "API info saved to "; Val (JStr p)]].
Proof.
  intros w0 p Hm Hg Hd.
  assert (E : update_api_info serve dotenv out w
              = (inr tt, log_out [Lit "API info saved to "; Val (JStr p)]
                           (set_file p (dumps_at (Some 4) 0 data) (set_file p EmptyString w2)))).
  { unfold update_api_info.
    erewrite bind_inr by reflexivity. erewrite bind_inr by exact Hm.
    unfold try_except. erewrite bind_inr by exact Hg. cbv beta zeta.
    unfold bind at 1, open_w. fold p. rewrite Hd. reflexivity. }
  rewrite E. split; [reflexivity | split; [apply file_contents_written | reflexivity]].
Qed.

Lemma update_api_info_writes_payload_witness :
  file_contents "/app/output/api_info.json"
    (snd (update_api_info ok_serve [] "/app/output" empty_world))
  = Some "{}".
Proof.
  apply (update_api_info_writes_payload ok_serve [] "/app/output" empty_world
           (add_dir "/app/output" empty_world)
           (snd (get_api_info ok_serve (add_dir "/app/output" empty_world))) (JObj []));
    vm_compute; reflexivity.
Defined.

(** X14. When UpdateTagsList's login returns [sid], get_all_tags(sid)
    returns [tags] and the output path is not a directory, the run ends
    normally, output/tags_info.json holds json.dump(tags, indent=4), and
    stdout gets "Tags info saved to <path>"; the login sends the
    environment's username and password, and the tag listing the sid the
    login returned. *)
Theorem update_tags_list_writes_payload (serve : request -> exn + response)
  (dotenv : list (string * string)) (out : string) (w w1 w2 w3 : world) (sid tags : json) :
  let w0 := snd (load_dotenv dotenv w) in
  let p := path_join out "tags_info.json" in
  makedirs out w0 = (inr tt, w1) ->
  authenticate serve (env_json "SYNOLOGY_PHOTO_USERNAME" w1)
    (env_json "SYNOLOGY_PHOTO_PASSWORD" w1) w1 = (inr sid, w2) ->
  get_all_tags serve sid w2 = (inr tags, w3) ->
  existsb (String.eqb p) (dirs w3) = false ->
  fst (update_tags_list serve dotenv out w) = inr tt
  /\ file_contents p (snd (update_tags_list serve dotenv out w))
     = Some (dumps_at (Some 4) 0 tags)
  /\ stdout (snd (update_tags_list serve dotenv out w))
     = app (stdout w3) [[Lit "Tags info saved to "; Val (JStr p)]]
  /\ requests_log (snd (update_tags_list serve dotenv out w))
     = app (requests_log w1)
         [mk_request (urljoin (env_url w1) "webapi/auth.cgi")
            (auth_params (env_json "SYNOLOGY_PHOTO_USERNAME" w1)
                         (env_json "SYNOLOGY_PHOTO_PASSWORD" w1));
          mk_request (urljoin (env_url w2) "webapi/entry.cgi") (tags_params sid)].
Proof.
  intros w0 p Hm Ha Hg Hd.
  assert (E : update_tags_list serve dotenv out w
              = (inr tt, log_out [Lit "Tags info saved to "; Val (JStr p)]
                           (set_file p (dumps_at (Some 4) 0 tags) (set_file p EmptyString w3)))).
  { unfold update_tags_list.
    erewrite bind_inr by reflexivity. erewrite bind_inr by exact Hm.
    unfold try_except.
    erewrite bind_inr by reflexivity. cbv beta.
    erewrite bind_inr by reflexivity. cbv beta.
    erewrite bind_inr by exact Ha. cbv beta.
    erewrite bind_inr by exact Hg. cbv beta zeta.
    unfold bind at 1, open_w. fold p. rewrite Hd. reflexivity. }
  rewrite E. split; [reflexivity | split; [apply file_contents_written | split; [reflexivity|]]].
  pose proof (authenticate_world serve (env_json "SYNOLOGY_PHOTO_USERNAME" w1)
                (env_json "SYNOLOGY_PHOTO_PASSWORD" w1) w1) as Hw1.
  pose proof (get_all_tags_world serve sid w2) as Hw2.
  rewrite Ha in Hw1. rewrite Hg in Hw2. simpl in Hw1, Hw2.
  simpl. rewrite Hw2, Hw1. simpl. rewrite <- app_assoc. reflexivity.
Qed.

Lemma update_tags_list_writes_payload_witness :
  file_contents "/app/output/tags_info.json"
    (snd (update_tags_list (with_login (list_serve team_tags)) bot_dotenv "/app/output"
            empty_world))
  = Some (dumps_at (Some 4) 0 (JList team_tags)).
Proof.
  apply (update_tags_list_writes_payload (with_login (list_serve team_tags)) bot_dotenv
           "/app/output" empty_world
           (add_dir "/app/output" (snd (load_dotenv bot_dotenv empty_world)))
           (snd (authenticate (with_login (list_serve team_tags)) (JStr "bot") (JStr "pw")
                   (add_dir "/app/output" (snd (load_dotenv bot_dotenv empty_world)))))
           (snd (get_all_tags (with_login (list_serve team_tags)) (JStr "s1d")
                   (snd (authenticate (with_login (list_serve team_tags)) (JStr "bot") (JStr "pw")
                           (add_dir "/app/output" (snd (load_dotenv bot_dotenv empty_world)))))))
           (JStr "s1d") (JList team_tags));
    vm_compute; reflexivity.
Defined.

(** X15. load_dotenv does not override: a variable already in the
    environment keeps its value, whatever .env says.  So a required
    variable set to the empty string in the environment makes AddTags exit
    1 without sending any request, even when .env gives it a value. *)
Theorem environment_wins_over_dotenv (serve : request -> exn + response) (budget : nat)
  (dotenv : list (string * string)) (w : world) :
  (forall name v, env_lookup name (environ w) = Some v ->
     env_lookup name (environ (snd (load_dotenv dotenv w))) = Some v)
  /\ (forall var, In var required_env -> env_lookup var (environ w) = Some EmptyString ->
        fst (add_tags_main serve budget dotenv w) = inl (SystemExit 1)
        /\ requests_log (snd (add_tags_main serve budget dotenv w)) = requests_log w).
Proof.
  split; [intros name v; apply load_dotenv_keeps|].
  intros var Hin Hv.
  assert (Hc : env_complete (snd (load_dotenv dotenv w)) = false).
  { unfold env_complete. apply not_true_iff_false. intros Hall.
    rewrite forallb_forall in Hall. specialize (Hall var Hin).
    rewrite (load_dotenv_keeps dotenv w var EmptyString Hv) in Hall. discriminate. }
  rewrite add_tags_main_unfold. cbv zeta. rewrite Hc. split; reflexivity.
Qed.

Lemma environment_wins_over_dotenv_witness :
  fst (add_tags_main ok_serve 3 bot_dotenv blank_user_world) = inl (SystemExit 1).
Proof.
  apply (proj2 (environment_wins_over_dotenv ok_serve 3 bot_dotenv blank_user_world)
           "SYNOLOGY_PHOTO_USERNAME"); [simpl; tauto | reflexivity].
Defined.

(** X16. A recursive get_items looks up [items.extend] before it reads a
    subfolder's 'id' or lists the subfolder: when the folder's own 'list'
    is not a list and the folder has a subfolder, it raises
    AttributeError after its item and subfolder listing requests, and
    sends no request for the subfolder. *)
Theorem get_items_extend_before_recursion (serve : request -> exn + response) (fuel : nat)
  (sid fid : json) (w w1 w2 : world) (data d v folders f : json) (fs : list json) :
  checked_get serve "webapi/entry.cgi" (items_params sid fid) "Failed to get items: " w
    = (inr data, w1) ->
  lookup_key data "data" = inr d -> lookup_key d "list" = inr v ->
  (forall l, v <> JList l) ->
  get_folders serve sid fid w1 = (inr folders, w2) ->
  iter_json folders = inr (f :: fs) ->
  get_items serve fuel sid fid true w
    = (inl (AttributeError "object has no attribute 'extend'"), w2)
  /\ requests_log w2
     = app (requests_log w)
         [mk_request (urljoin (env_url w) "webapi/entry.cgi") (items_params sid fid);
          mk_request (urljoin (env_url w) "webapi/entry.cgi") (folders_params sid fid)].
Proof.
  intros Hc Hd Hl Hv Hf Hi. split.
  - destruct fuel; cbn [get_items];
    erewrite bind_inr by exact Hc; cbv beta;
    (erewrite bind_inr by (unfold getitem, lift; rewrite Hd; reflexivity)); cbv beta;
    (erewrite bind_inr by (unfold getitem, lift; rewrite Hl; reflexivity)); cbv beta iota;
    erewrite bind_inr by exact Hf; cbv beta;
    (erewrite bind_inr by (unfold py_iter, lift; rewrite Hi; reflexivity)); cbv beta;
    cbn [extend_loop]; unfold bind at 1, extend_method;
    (destruct v; try reflexivity); exfalso; eapply Hv; reflexivity.
  - pose proof (checked_get_world serve "webapi/entry.cgi" (items_params sid fid)
                  "Failed to get items: " w) as H1.
    rewrite Hc in H1. simpl in H1. subst w1.
    pose proof (get_folders_world serve sid fid
                  (log_request (mk_request (urljoin (env_url w) "webapi/entry.cgi")
                                 (items_params sid fid)) w)) as H2.
    rewrite Hf in H2. simpl in H2. subst w2.
    simpl. rewrite <- app_assoc. reflexivity.
Qed.

Lemma get_items_extend_before_recursion_witness :
  fst (get_items dict_list_serve 3 (JStr "sid") (JInt 3048) true empty_world)
    = inl (AttributeError "object has no attribute 'extend'")
  /\ length (requests_log (snd (get_items dict_list_serve 3 (JStr "sid") (JInt 3048) true
                                  empty_world))) = 2.
Proof.
  destruct (get_items_extend_before_recursion dict_list_serve 3 (JStr "sid") (JInt 3048)
              empty_world
              (snd (checked_get dict_list_serve "webapi/entry.cgi"
                      (items_params (JStr "sid") (JInt 3048)) "Failed to get items: " empty_world))
              (snd (get_folders dict_list_serve (JStr "sid") (JInt 3048)
                      (snd (checked_get dict_list_serve "webapi/entry.cgi"
                              (items_params (JStr "sid") (JInt 3048)) "Failed to get items: "
                              empty_world))))
              (JObj [("success", JBool true); ("data", JObj [("list", JObj [])])])
              (JObj [("list", JObj [])]) (JObj [])
              (JList [JObj [("id", JInt 3049)]]) (JObj [("id", JInt 3049)]) [])
    as [E L].
  - vm_compute. reflexivity.
  - reflexivity.
  - reflexivity.
  - intros l. discriminate.
  - vm_compute. reflexivity.
  - reflexivity.
  - rewrite E. cbn [fst snd]. split; [reflexivity|]. rewrite L. reflexivity.
Defined.
